(** * panasoniceolia.session: the Eolia cloud session and its parameter codec

    A shallow embedding of [src/panasoniceolia/session.py].  Python values
    that travel through the session are modelled by [json] (what
    [json.loads] returns) and [pyobj] (those plus the members of the four
    enumerations of [constants.py]); dictionaries are finite maps with
    string keys; exceptions are values of [exn] carried by [result].  The
    collaborators that are not part of [session.py] are parameters: the
    enumerations ([Constants]), the endpoints ([Urls]), the JSON decoder and
    the HTTP transport.  The diagnostic [print]s, which change neither the
    results nor the state, are left out. *)

From Stdlib Require Import ZArith String Ascii List Bool.
From Stdlib Require Import Floats.SpecFloat DecimalString.
From stdpp Require Import gmap strings list fin_maps.

Local Open Scope Z_scope.
#[local] Set Warnings "-clear-no-such-hyp".

(** ** Python values *)

(** The values [json.loads] produces: [None], [bool], [int], [float] (an
    IEEE-754 binary64 value), [str], [list] and [dict] with string keys. *)
#[warnings="-register-all"]
Inductive json : Type :=
| JNull
| JBool (b : bool)
| JInt (z : Z)
| JFloat (f : spec_float)
| JStr (s : string)
| JList (l : list json)
| JDict (d : gmap string json).

(** Modelled from the spec: [constants.py], which declares the enumerations,
    is not among the sources.  A wire code is "the small-integer/string
    value used by the remote API to represent an enumerated setting"; a
    Python [bool] is an [int] too, so the three scalar shapes are kept. *)
Inductive wire_code : Type :=
| CBool (b : bool)
| CInt (z : Z)
| CStr (s : string).

Definition code_json (c : wire_code) : json :=
  match c with
  | CBool b => JBool b
  | CInt z => JInt z
  | CStr s => JStr s
  end.

(** Python compares a [float] with an [int] exactly: the float
    [(-1)^s * m * 2^e] equals [z] when the two numbers are the same. *)
Definition float_eq_Z (f : spec_float) (z : Z) : bool :=
  match f with
  | S754_zero _ => z =? 0
  | S754_finite s m e =>
      let n := if s then Z.neg m else Z.pos m in
      if 0 <=? e then z =? n * 2 ^ e else z * 2 ^ (- e) =? n
  | S754_infinity _ | S754_nan => false
  end.

Definition num_eq (v : json) (n : Z) : bool :=
  match v with
  | JBool b => Z.b2z b =? n
  | JInt z => z =? n
  | JFloat f => float_eq_Z f n
  | _ => false
  end.

(** [v == c] in Python, for a decoded JSON value [v] and a wire code [c]:
    numbers compare by value across [bool], [int] and [float]; a string
    equals only the same string; containers and [None] equal no code. *)
Definition py_eq (v : json) (c : wire_code) : bool :=
  match c with
  | CBool b => num_eq v (Z.b2z b)
  | CInt n => num_eq v n
  | CStr s => match v with JStr t => String.eqb t s | _ => false end
  end.

(** ** Exceptions and results *)

(** The exceptions of the module ([Error] and its three subclasses) and the
    ones of the runtime that can cross it.  [RequestException] stands for
    [requests.exceptions.RequestException] and all its subclasses. *)
Inductive exn : Type :=
| RequestException (detail : string)
| Error (cause : exn)
| RequestError (cause : exn)
| LoginError (cause : exn)
| ResponseError (message : string) (status_code : Z) (text : json)
| JSONDecodeError (doc : string)
| KeyError (key : string)
| TypeError
| ValueError (v : json) (cls : string).

Inductive result (A : Type) : Type :=
| Return (a : A)
| Raise (e : exn).
Arguments Return {A} a.
Arguments Raise {A} e.

#[global] Instance result_ret : MRet result := @Return.
#[global] Instance result_bind : MBind result := λ A B f m,
  match m with
  | Return a => f a
  | Raise e => Raise e
  end.

#[global] Instance result_fmap : FMap result := λ A B f m,
  match m with
  | Return a => Return (f a)
  | Raise e => Raise e
  end.

(** A loop whose body may raise. *)
Fixpoint foldM {A B : Type} (f : A → B → result A) (a : A) (l : list B) : result A :=
  match l with
  | [] => Return a
  | b :: l => a' ← f a b; foldM f a' l
  end.

(** ** Operations of Python on decoded values *)

(** [key in container], for a string [key]. *)
Definition py_in (key : string) (container : json) : result bool :=
  match container with
  | JDict d => Return (bool_decide (is_Some (d !! key)))
  | JList l => Return (existsb (λ x, match x with JStr s => String.eqb s key | _ => false end) l)
  | JStr s => Return (bool_decide (is_Some (String.index 0 key s)))
  | JNull | JBool _ | JInt _ | JFloat _ => Raise TypeError
  end.

(** [container[key]], for a string [key]. *)
Definition py_getitem (container : json) (key : string) : result json :=
  match container with
  | JDict d => match d !! key with Some v => Return v | None => Raise (KeyError key) end
  | _ => Raise TypeError
  end.

(** [for x in container]: the elements in iteration order.  A [dict]
    yields its keys; the map does not keep their order of insertion, which
    no statement below depends on. *)
Definition py_iter (container : json) : result (list json) :=
  match container with
  | JList l => Return l
  | JDict d => Return (JStr <$> (map_to_list d).*1)
  | JStr s => Return ((λ c, JStr (String c EmptyString)) <$> list_ascii_of_string s)
  | JNull | JBool _ | JInt _ | JFloat _ => Raise TypeError
  end.

(** ** Enumerations *)

(** Modelled from the spec: a class of [constants.py] derived from
    [enum.Enum].  Its members carry a wire code each; Python makes a member
    whose value equals an earlier one an alias of it, so distinct members
    have codes that differ under [==].  Calling the class looks the member up
    by value and fails with [ValueError] when there is none ("no
    fallback/default"). *)
Class PyEnum (E : Type) : Type := {
  qualname : string;
  members : list E;
  value : E → wire_code;
  members_all : ∀ m : E, m ∈ members;
  value_distinct : ∀ a b : E, py_eq (code_json (value a)) (value b) = true → a = b
}.

(** [E(v)]: the member whose value equals [v], else [ValueError]. *)
Definition enum_call (E : Type) `{PyEnum E} (v : json) : result E :=
  match find (λ m, py_eq v (value m)) members with
  | Some m => Return m
  | None => Raise (ValueError v (qualname (E:=E)))
  end.

(** [constants.py] as a whole: the four classes the session uses. *)
Class Constants : Type := {
  Power : Type;
  OperationMode : Type;
  FanSpeed : Type;
  AirSwingUD : Type;
  Power_enum :: PyEnum Power;
  OperationMode_enum :: PyEnum OperationMode;
  FanSpeed_enum :: PyEnum FanSpeed;
  AirSwingUD_enum :: PyEnum AirSwingUD
}.

Section Codec.
Context `{constants : Constants}.

(** The values a caller can hand to [set_device] and the values of a
    decoded parameter set: plain data, or a member of one of the four
    enumerations. *)
Inductive pyobj : Type :=
| Plain (j : json)
| OfPower (p : Power)
| OfOperationMode (m : OperationMode)
| OfFanSpeed (f : FanSpeed)
| OfAirSwingUD (a : AirSwingUD).

(** *** Encode direction: the payload of [set_device] (lines 245-268) *)

(** [isinstance(value, constants.Power)] and its three siblings, giving
    the member when the test holds. *)
Definition as_Power (v : pyobj) : option Power :=
  match v with OfPower p => Some p | _ => None end.
Definition as_OperationMode (v : pyobj) : option OperationMode :=
  match v with OfOperationMode m => Some m | _ => None end.
Definition as_FanSpeed (v : pyobj) : option FanSpeed :=
  match v with OfFanSpeed f => Some f | _ => None end.
Definition as_AirSwingUD (v : pyobj) : option AirSwingUD :=
  match v with OfAirSwingUD a => Some a | _ => None end.

(** [if key == name and isinstance(value, E): payload[wire] = value.value]. *)
Definition put_enum {E : Type} `{PyEnum E} (as_E : pyobj → option E)
    (name wire key : string) (v : pyobj) (payload : gmap string pyobj)
  : gmap string pyobj :=
  if String.eqb key name then
    match as_E v with
    | Some m => <[wire := Plain (code_json (value m))]> payload
    | None => payload
    end
  else payload.

(** One round of [for key, value in kwargs.items()]: the five [if]s in
    the order of the source. *)
Definition payload_item (payload : gmap string pyobj) (item : string * pyobj)
  : gmap string pyobj :=
  let '(key, v) := item in
  let payload := put_enum as_Power "power" "operation_status" key v payload in
  let payload :=
    if String.eqb key "temperature" then <["temperature" := v]> payload else payload in
  let payload := put_enum as_OperationMode "mode" "operation_mode" key v payload in
  let payload := put_enum as_FanSpeed "fanSpeed" "wind_volume" key v payload in
  put_enum as_AirSwingUD "airSwingVertical" "wind_direction" key v payload.

(** The statements of [set_device] that build the payload: the loop over
    the keyword arguments, then the four fixed fields. *)
Definition build_payload (kwargs : list (string * pyobj)) : gmap string pyobj :=
  let payload := foldl payload_item ∅ kwargs in
  let payload := <["airquality" := Plain (JBool false)]> payload in
  let payload := <["nanoex" := Plain (JBool true)]> payload in
  let payload := <["silence_control" := Plain (JBool false)]> payload in
  <["timer_value" := Plain (JInt 0)]> payload.

(** *** Decode direction: [_read_parameters] (lines 300-324) *)

Definition _convert : list (string * string) :=
  [ ("inside_temp", "temperatureInside");
    ("outside_temp", "temperatureOutside");
    ("temperature", "temperature") ].

(** [if key in parameters: value[name] = conv(parameters[key])]. *)
Definition read_field (parameters : json) (key name : string)
    (conv : json → result pyobj) (val : gmap string pyobj)
  : result (gmap string pyobj) :=
  present ← py_in key parameters;
  if present : bool then
    x ← py_getitem parameters key;
    y ← conv x;
    Return (<[name := y]> val)
  else Return val.

Definition _read_parameters (parameters : json) : result (gmap string pyobj) :=
  val ← foldM (λ val '(key, name),
                 read_field parameters key name (λ x, Return (Plain x)) val)
              ∅ _convert;
  val ← read_field parameters "operation_status" "power"
          (λ x, OfPower <$> enum_call Power x) val;
  val ← read_field parameters "operation_mode" "mode"
          (λ x, OfOperationMode <$> enum_call OperationMode x) val;
  val ← read_field parameters "wind_volume" "fanSpeed"
          (λ x, OfFanSpeed <$> enum_call FanSpeed x) val;
  read_field parameters "wind_direction" "airSwingVertical"
    (λ x, OfAirSwingUD <$> enum_call AirSwingUD x) val.

End Codec.

(** ** The session *)

(** [urls.py], which is not among the sources: the three endpoints. *)
Class Urls : Type := {
  urls_login : string;
  urls_get_devices : string;
  urls_status : string → string
}.

(** What a [requests] call answers with: the two attributes the session
    reads. *)
Record Response : Type := { status_code : Z; text : string }.

Inductive http_method : Type := GET | POST | PUT.

Module Device.
(** An entry of the list [get_devices] builds. *)
Record summary : Type := { id : json; name : json; model : json }.
End Device.

Module Status.
(** What [get_device] returns. *)
Record t (parameter_set : Type) : Type := { id : string; parameters : parameter_set }.
Arguments id {parameter_set} _.
Arguments parameters {parameter_set} _.
End Status.

Section Session.
Context `{constants : Constants} `{urls : Urls}.

Record Request : Type := {
  method : http_method;
  url : string;
  json_body : option (gmap string pyobj);
  headers : list (string * string);
  verify : option string
}.

(** The runtime around the module: [json.loads] ([None] when it raises
    [JSONDecodeError]), the local time as [_headers] formats it, the
    directory of the installed package, and [requests.Session], a
    transport with a state of its own whose calls answer with a response
    or raise. *)
Class Runtime : Type := {
  json_loads : string → option json;
  strftime_now : string;
  package_dir : string;
  Transport : Type;
  requests_Session : Transport;
  requests_send : Transport → Request → result Response * Transport
}.
Context `{runtime : Runtime}.

(** The attributes of a [Session] object. [_verifySsl] is [None] for
    [False] and the path of the certificate chain otherwise. *)
Record Session : Type := {
  _username : string;
  _password : string;
  _session : Transport;
  _devices : option (list Device.summary);
  _raw : bool;
  _verifySsl : option string
}.

Definition __init__ (username password : string) (raw verifySsl : bool) : Session :=
  {| _username := username;
     _password := password;
     _session := requests_Session;
     _devices := None;
     _raw := raw;
     _verifySsl :=
       if negb verifySsl then None
       else Some (package_dir +:+ "/certificatechain.pem") |}.

(** *** Methods as state transformers that may raise *)

Definition M (A : Type) : Type := Session → result A * Session.

Definition ret {A : Type} (a : A) : M A := λ self, (Return a, self).
Definition raise {A : Type} (e : exn) : M A := λ self, (Raise e, self).
Definition lift {A : Type} (r : result A) : M A := λ self, (r, self).
Definition bind {A B : Type} (m : M A) (k : A → M B) : M B := λ self,
  match m self with
  | (Return a, self') => k a self'
  | (Raise e, self') => (Raise e, self')
  end.
Definition attr {A : Type} (field : Session → A) : M A := λ self, (Return (field self), self).

Notation "'let*' x := m 'in' k" := (bind m (λ x, k))
  (at level 10, x name, m at level 100, k at level 200, only parsing).
Notation "m ;;; k" := (bind m (λ _, k))
  (at level 100, k at level 200, right associativity, only parsing).

(** [try: body except requests.exceptions.RequestException as ex: raise wrap(ex)]. *)
Definition except_RequestException {A : Type} (body : M A) (wrap : exn → exn) : M A :=
  λ self,
    match body self with
    | (Raise (RequestException detail), self') => (Raise (wrap (RequestException detail)), self')
    | other => other
    end.

(** The object with one attribute replaced. *)
Definition with_devices (devices : option (list Device.summary)) (self : Session) : Session :=
  {| _username := _username self;
     _password := _password self;
     _session := _session self;
     _devices := devices;
     _raw := _raw self;
     _verifySsl := _verifySsl self |}.

Definition with_session (transport : Transport) (self : Session) : Session :=
  {| _username := _username self;
     _password := _password self;
     _session := transport;
     _devices := _devices self;
     _raw := _raw self;
     _verifySsl := _verifySsl self |}.

(** [self._devices = devices]. *)
Definition set__devices (devices : list Device.summary) : M unit := λ self,
  (Return tt, with_devices (Some devices) self).

(** [self._devices.append(x)]. *)
Definition _devices_append (x : Device.summary) : M unit := λ self,
  (Return tt, with_devices ((λ l, l ++ [x]) <$> _devices self) self).

(** A call of [self._session]: the transport moves on, the rest of the
    object stays. *)
Definition session_request (req : Request) : M Response := λ self,
  let '(answer, transport) := requests_send (_session self) req in
  (answer, with_session transport self).

Definition str_of_Z (z : Z) : string := NilZero.string_of_int (Z.to_int z).

(** The message of a [ResponseError]: the status code in decimal and the
    body as received. *)
Definition invalid_response (status_code : Z) (text : string) : string :=
  "Invalid response, status code: " +:+ str_of_Z status_code +:+ " - Data: " +:+ text.

(** [ResponseError.__init__] (lines 34-41): the message is formatted, the
    status code stored, and the body decoded with [json.loads], which may
    raise. *)
Definition new_ResponseError (status_code : Z) (text : string) : result exn :=
  let message := invalid_response status_code text in
  match json_loads text with
  | Some data => Return (ResponseError message status_code data)
  | None => Raise (JSONDecodeError text)
  end.

(** [raise ResponseError(status_code, text)]. *)
Definition raise_ResponseError {A : Type} (status_code : Z) (text : string) : M A :=
  match new_ResponseError status_code text with
  | Return e => raise e
  | Raise e => raise e
  end.

(** [json.loads(text)] as a statement. *)
Definition loads (text : string) : M json :=
  match json_loads text with
  | Some data => ret data
  | None => raise (JSONDecodeError text)
  end.

Definition _validate_response (response : Response) : M unit :=
  if 2 =? status_code response / 100 then ret tt
  else raise_ResponseError (status_code response) (text response).

Definition _headers : list (string * string) :=
  [ ("Accept", "application/json");
    ("Content-Type", "application/json;charset=UTF-8");
    ("X-Eolia-Date", strftime_now) ].

(** The four requests of the module. *)
Definition login_request (payload : gmap string pyobj) (verifySsl : option string) : Request :=
  {| method := POST; url := urls_login; json_body := Some payload;
     headers := _headers; verify := verifySsl |}.

Definition devices_request (verifySsl : option string) : Request :=
  {| method := GET; url := urls_get_devices; json_body := None;
     headers := _headers; verify := verifySsl |}.

Definition status_request (id : string) (verifySsl : option string) : Request :=
  {| method := GET; url := urls_status id; json_body := None;
     headers := _headers; verify := verifySsl |}.

Definition control_request (id : string) (payload : gmap string pyobj)
    (verifySsl : option string) : Request :=
  {| method := PUT; url := urls_status id; json_body := Some payload;
     headers := _headers; verify := verifySsl |}.

Definition login_payload (username password : string) : gmap string pyobj :=
  {[ "idpw" := Plain (JDict (<["id" := JStr username]>
                              (<["next_easy" := JBool true]>
                              (<["pass" := JStr password]>
                              (<["terminal_type" := JInt 3]> ∅))))) ]}.

Definition login : M unit :=
  let* username := attr _username in
  let* password := attr _password in
  let payload := login_payload username password in
  let* verifySsl := attr _verifySsl in
  let* response :=
    except_RequestException
      (let* response := session_request (login_request payload verifySsl) in
       if negb (2 =? status_code response / 100)
       then raise_ResponseError (status_code response) (text response)
       else ret response)
      LoginError in
  _validate_response response.

Definition logout : M unit := ret tt.

(** The dictionary built from an entry of [ac_list]: the three subscripts
    in the order of the source. *)
Definition entry_summary (device : json) : result Device.summary :=
  appliance_id ← py_getitem device "appliance_id";
  nickname ← py_getitem device "nickname";
  product_code ← py_getitem device "product_code";
  Return {| Device.id := appliance_id;
            Device.name := nickname;
            Device.model := product_code |}.

(** The body of the loop of [get_devices]. *)
Definition get_devices_entry (device : json) : M unit :=
  let* summary := lift (entry_summary device) in
  _devices_append summary.

Fixpoint for_each {A : Type} (body : A → M unit) (l : list A) : M unit :=
  match l with
  | [] => ret tt
  | x :: l => body x ;;; for_each body l
  end.

Definition get_devices : M (option (list Device.summary)) :=
  set__devices [] ;;;
  let* verifySsl := attr _verifySsl in
  let* response :=
    except_RequestException
      (let* response := session_request (devices_request verifySsl) in
       if negb (2 =? status_code response / 100)
       then raise_ResponseError (status_code response) (text response)
       else ret response)
      Error in
  _validate_response response ;;;
  let* document := loads (text response) in
  let* devices := lift (py_getitem document "ac_list") in
  let* entries := lift (py_iter devices) in
  for_each get_devices_entry entries ;;;
  attr _devices.

(** [dump] and [get_device] share their request (lines 154-163 and
    213-222): the status must be 200 inside the [try]. *)
Definition get_status (id : string) : M Response :=
  let* verifySsl := attr _verifySsl in
  let* response :=
    except_RequestException
      (let* response := session_request (status_request id verifySsl) in
       if negb (status_code response =? 200)
       then raise_ResponseError (status_code response) (text response)
       else ret response)
      RequestError in
  _validate_response response ;;;
  ret response.

Definition dump (id : string) : M json :=
  let* response := get_status id in
  loads (text response).

Definition get_device (id : string) : M (Status.t (gmap string pyobj)) :=
  let* response := get_status id in
  let* _json := loads (text response) in
  let* parameters := lift (_read_parameters _json) in
  ret {| Status.id := id; Status.parameters := parameters |}.

Definition set_device (id : string) (kwargs : list (string * pyobj)) : M bool :=
  let payload := build_payload kwargs in
  let* verifySsl := attr _verifySsl in
  let* response :=
    except_RequestException
      (let* response := session_request (control_request id payload verifySsl) in
       if negb (2 =? status_code response / 100)
       then raise_ResponseError (status_code response) (text response)
       else ret response)
      RequestError in
  _validate_response response ;;;
  let* _json := loads (text response) in
  ret true.

End Session.

Section ContextManager.
Context `{constants : Constants} `{urls : Urls} `{runtime : !Runtime}.

(** [__enter__] (lines 68-70): log in, then hand out the object itself. *)
Definition __enter__ : M Session :=
  bind login (λ _ self, (Return self, self)).

(** [__exit__] (lines 72-73): log out whatever ended the block; the result
    is [None], so an exception of the block is not taken away. *)
Definition __exit__ (exc : option exn) : M unit := logout.

End ContextManager.

(** ** The settings backed by an enumeration *)

Inductive setting : Type := power | mode | fanSpeed | airSwingVertical.

(** The name a caller uses and the name on the wire, as [set_device] and
    [_read_parameters] pair them. *)
Definition domain_key (s : setting) : string :=
  match s with
  | power => "power"
  | mode => "mode"
  | fanSpeed => "fanSpeed"
  | airSwingVertical => "airSwingVertical"
  end.

Definition wire_key (s : setting) : string :=
  match s with
  | power => "operation_status"
  | mode => "operation_mode"
  | fanSpeed => "wind_volume"
  | airSwingVertical => "wind_direction"
  end.

(** The table [_read_parameters] goes through, wire key first: the three
    copied fields of [_convert], then the four decoded ones. *)
Definition translation : list (string * string) :=
  _convert ++ ((λ s, (wire_key s, domain_key s)) <$> [power; mode; fanSpeed; airSwingVertical]).

Section Settings.
Context `{constants : Constants}.

(** [isinstance(v, E)] for the class of setting [s]. *)
Definition has_type (s : setting) (v : pyobj) : bool :=
  match s, v with
  | power, OfPower _ => true
  | mode, OfOperationMode _ => true
  | fanSpeed, OfFanSpeed _ => true
  | airSwingVertical, OfAirSwingUD _ => true
  | _, _ => false
  end.

(** A number, the type the docstring of [set_device] gives to
    [temperature]. *)
Definition is_number (v : pyobj) : bool :=
  match v with
  | Plain (JInt _) | Plain (JFloat _) => true
  | _ => false
  end.

(** [v.value] of a member. *)
Definition code_of (v : pyobj) : option wire_code :=
  match v with
  | Plain _ => None
  | OfPower p => Some (value p)
  | OfOperationMode m => Some (value m)
  | OfFanSpeed f => Some (value f)
  | OfAirSwingUD a => Some (value a)
  end.

(** The known code set of a setting: the codes of the members of its class. *)
Definition codes (s : setting) : list wire_code :=
  match s with
  | power => value <$> members (E:=Power)
  | mode => value <$> members (E:=OperationMode)
  | fanSpeed => value <$> members (E:=FanSpeed)
  | airSwingVertical => value <$> members (E:=AirSwingUD)
  end.

Definition known_code (s : setting) (x : json) : bool :=
  existsb (py_eq x) (codes s).

Definition class_name (s : setting) : string :=
  match s with
  | power => qualname (E:=Power)
  | mode => qualname (E:=OperationMode)
  | fanSpeed => qualname (E:=FanSpeed)
  | airSwingVertical => qualname (E:=AirSwingUD)
  end.

(** The class of setting [s] called on [x], as [_read_parameters] does. *)
Definition decode (s : setting) (x : json) : result pyobj :=
  match s with
  | power => OfPower <$> enum_call Power x
  | mode => OfOperationMode <$> enum_call OperationMode x
  | fanSpeed => OfFanSpeed <$> enum_call FanSpeed x
  | airSwingVertical => OfAirSwingUD <$> enum_call AirSwingUD x
  end.

(** The first loop of [_read_parameters] on a dictionary. *)
Definition copied (d : gmap string json) : gmap string pyobj :=
  foldl (λ val '(key, name),
           match d !! key with
           | Some x => <[name := Plain x]> val
           | None => val
           end) ∅ _convert.

(** One of the four decoded fields on a dictionary. *)
Definition read_enum (d : gmap string json) (s : setting) (val : gmap string pyobj)
  : result (gmap string pyobj) :=
  match d !! wire_key s with
  | Some x => v ← decode s x; Return (<[domain_key s := v]> val)
  | None => Return val
  end.

(** What one keyword argument writes into the payload: nothing, or one
    wire key. *)
Definition encode_item (item : string * pyobj) : option (string * pyobj) :=
  let '(key, v) := item in
  if String.eqb key "temperature" then Some ("temperature", v)
  else
    s ← find (λ s, String.eqb key (domain_key s)) [power; mode; fanSpeed; airSwingVertical];
    if has_type s v then (λ c, (wire_key s, Plain (code_json c))) <$> code_of v else None.

(** The four fixed fields come last and are written by no argument. *)
Definition fixed_fields : list (string * pyobj) :=
  [ ("airquality", Plain (JBool false));
    ("nanoex", Plain (JBool true));
    ("silence_control", Plain (JBool false));
    ("timer_value", Plain (JInt 0)) ].

(** The entries of a payload that are plain data, as a wire document: what
    a device that echoes the settings it was sent would answer with. *)
Definition as_plain (v : pyobj) : option json :=
  match v with
  | Plain j => Some j
  | _ => None
  end.

Definition echoed (payload : gmap string pyobj) : gmap string json :=
  omap as_plain payload.

(** Every key of [val] is the translation of a key of [d]. *)
Definition explained (d : gmap string json) (val : gmap string pyobj) : Prop :=
  ∀ name, is_Some (val !! name) → ∃ key, (key, name) ∈ translation ∧ is_Some (d !! key).

End Settings.

(** ** A sample installation

    The theorems below hold for every instance of [Constants], [Urls] and
    [Runtime].  This one is used to run the session on concrete inputs. *)

(** A decoder for JSON texts, standing for [json.loads] in the sample
    runtime: the grammar of JSON with the three extra literals Python
    accepts, integers of any size, floats rounded to binary64, duplicate
    keys resolved to the last one. *)
Module Decoder.

Definition code (c : ascii) : Z := Z.of_N (N_of_ascii c).
Definition chr (n : Z) : ascii := ascii_of_N (Z.to_N n).

(** Space, tab, line feed, carriage return. *)
Definition is_ws (c : ascii) : bool :=
  let n := code c in (n =? 32) || (n =? 9) || (n =? 10) || (n =? 13).

Fixpoint skip_ws (s : string) : string :=
  match s with
  | String c r => if is_ws c then skip_ws r else s
  | EmptyString => s
  end.

Fixpoint strip (prefix s : string) : option string :=
  match prefix, s with
  | EmptyString, _ => Some s
  | String a p, String b r => if Ascii.eqb a b then strip p r else None
  | String _ _, EmptyString => None
  end.

Definition digit (c : ascii) : option Z :=
  let n := code c in if (48 <=? n) && (n <=? 57) then Some (n - 48) else None.

Definition hex (c : ascii) : option Z :=
  let n := code c in
  if (48 <=? n) && (n <=? 57) then Some (n - 48)
  else if (65 <=? n) && (n <=? 70) then Some (n - 55)
  else if (97 <=? n) && (n <=? 102) then Some (n - 87)
  else None.

(** A run of digits: its value, its length and what follows. *)
Fixpoint digits (s : string) (acc : Z) (count : Z) : Z * Z * string :=
  match s with
  | String c r =>
      match digit c with
      | Some d => digits r (acc * 10 + d) (count + 1)
      | None => (acc, count, s)
      end
  | EmptyString => (acc, count, s)
  end.

(** The binary64 value nearest to [m * 10^e], ties to even. *)
Definition float_of_decimal (negative : bool) (m e : Z) : spec_float :=
  if m =? 0 then S754_zero negative
  else if 0 <=? e then
    binary_normalize 53 1024 ((if negative then - m else m) * 10 ^ e) 0 false
  else
    SFdiv 53 1024 (S754_finite negative (Z.to_pos m) 0)
                  (S754_finite false (Z.to_pos (10 ^ (- e))) 0).

(** A number: an optional minus sign, an integer part without leading
    zero, then optionally a fraction and an exponent, each taken only when
    complete. *)
Definition number (s : string) : option (json * string) :=
  let '(negative, s) :=
    match s with
    | String c r => if code c =? 45 then (true, r) else (false, s)
    | EmptyString => (false, s)
    end in
  let int_part :=
    match s with
    | String c r =>
        if code c =? 48 then Some (0, r)
        else match digits s 0 0 with
             | (m, n, r) => if 0 <? n then Some (m, r) else None
             end
    | EmptyString => None
    end in
  '(m, s) ← int_part;
  let '(m, scale, fraction, s) :=
    match s with
    | String c r =>
        if code c =? 46 then
          match digits r m 0 with
          | (m', n, r') => if 0 <? n then (m', n, true, r') else (m, 0, false, s)
          end
        else (m, 0, false, s)
    | EmptyString => (m, 0, false, s)
    end in
  let '(exponent, s) :=
    match s with
    | String c r =>
        if (code c =? 101) || (code c =? 69) then
          let '(minus, r') :=
            match r with
            | String c' r'' =>
                if code c' =? 45 then (true, r'')
                else if code c' =? 43 then (false, r'')
                else (false, r)
            | EmptyString => (false, r)
            end in
          match digits r' 0 0 with
          | (x, n, r'') => if 0 <? n then (Some (if minus then - x else x), r'') else (None, s)
          end
        else (None, s)
    | EmptyString => (None, s)
    end in
  match fraction, exponent with
  | false, None => Some (JInt (if negative then - m else m), s)
  | _, _ => Some (JFloat (float_of_decimal negative m (default 0 exponent - scale)), s)
  end.

(** The UTF-8 bytes of a code point of the basic plane. *)
Definition utf8 (n : Z) : string :=
  if n <? 128 then String (chr n) EmptyString
  else if n <? 2048 then
    String (chr (192 + n / 64)) (String (chr (128 + n mod 64)) EmptyString)
  else
    String (chr (224 + n / 4096))
      (String (chr (128 + (n / 64) mod 64)) (String (chr (128 + n mod 64)) EmptyString)).

Definition escape (n : Z) : option ascii :=
  if (n =? 34) || (n =? 92) || (n =? 47) then Some (chr n)
  else if n =? 98 then Some (chr 8)
  else if n =? 102 then Some (chr 12)
  else if n =? 110 then Some (chr 10)
  else if n =? 114 then Some (chr 13)
  else if n =? 116 then Some (chr 9)
  else None.

(** The characters of a string after its opening quote, up to the closing
    one.  Control characters are refused; an escape of a surrogate code
    point is not decoded. *)
Fixpoint chars (s : string) : option (string * string) :=
  match s with
  | EmptyString => None
  | String c r =>
      if code c =? 34 then Some (EmptyString, r)
      else if code c <? 32 then None
      else if code c =? 92 then
        match r with
        | String e r1 =>
            if code e =? 117 then
              match r1 with
              | String h1 (String h2 (String h3 (String h4 r5))) =>
                  a ← hex h1; b ← hex h2; c ← hex h3; d ← hex h4;
                  let n := ((a * 16 + b) * 16 + c) * 16 + d in
                  if (55296 <=? n) && (n <=? 57343) then None
                  else '(body, rest) ← chars r5; Some (utf8 n +:+ body, rest)
              | _ => None
              end
            else
              x ← escape (code e);
              '(body, rest) ← chars r1;
              Some (String x body, rest)
        | EmptyString => None
        end
      else '(body, rest) ← chars r; Some (String c body, rest)
  end.

Fixpoint element (fuel : nat) (s : string) : option (json * string) :=
  match fuel with
  | O => None
  | S fuel =>
      match s with
      | EmptyString => None
      | String c r =>
          let n := code c in
          if n =? 34 then '(body, rest) ← chars r; Some (JStr body, rest)
          else if n =? 91 then
            let r := skip_ws r in
            match r with
            | String c' r' =>
                if code c' =? 93 then Some (JList [], r')
                else '(l, rest) ← elements fuel r; Some (JList l, rest)
            | EmptyString => None
            end
          else if n =? 123 then
            let r := skip_ws r in
            match r with
            | String c' r' =>
                if code c' =? 125 then Some (JDict ∅, r')
                else '(d, rest) ← members fuel r ∅; Some (JDict d, rest)
            | EmptyString => None
            end
          else
            match strip "null" s, strip "true" s, strip "false" s with
            | Some rest, _, _ => Some (JNull, rest)
            | _, Some rest, _ => Some (JBool true, rest)
            | _, _, Some rest => Some (JBool false, rest)
            | _, _, _ =>
                match strip "NaN" s, strip "Infinity" s, strip "-Infinity" s with
                | Some rest, _, _ => Some (JFloat S754_nan, rest)
                | _, Some rest, _ => Some (JFloat (S754_infinity false), rest)
                | _, _, Some rest => Some (JFloat (S754_infinity true), rest)
                | _, _, _ => number s
                end
            end
      end
  end
with elements (fuel : nat) (s : string) : option (list json * string) :=
  match fuel with
  | O => None
  | S fuel =>
      '(x, rest) ← element fuel s;
      match skip_ws rest with
      | String c r =>
          if code c =? 93 then Some ([x], r)
          else if code c =? 44 then
            '(l, rest) ← elements fuel (skip_ws r); Some (x :: l, rest)
          else None
      | EmptyString => None
      end
  end
with members (fuel : nat) (s : string) (d : gmap string json)
    : option (gmap string json * string) :=
  match fuel with
  | O => None
  | S fuel =>
      match s with
      | String c r =>
          if code c =? 34 then
            '(key, rest) ← chars r;
            match skip_ws rest with
            | String c' r' =>
                if code c' =? 58 then
                  '(x, rest) ← element fuel (skip_ws r');
                  let d := <[key := x]> d in
                  match skip_ws rest with
                  | String c'' r'' =>
                      if code c'' =? 125 then Some (d, r'')
                      else if code c'' =? 44 then members fuel (skip_ws r'') d
                      else None
                  | EmptyString => None
                  end
                else None
            | EmptyString => None
            end
          else None
      | EmptyString => None
      end
  end.

(** A whole document: one value between optional white space. *)
Definition loads (s : string) : option json :=
  '(x, rest) ← element (S (String.length s)) (skip_ws s);
  match skip_ws rest with
  | EmptyString => Some x
  | String _ _ => None
  end.

(** The texts of the examples are written with apostrophes where JSON has
    double quotes. *)
Fixpoint js (s : string) : string :=
  match s with
  | String c r => String (if code c =? 39 then chr 34 else c) (js r)
  | EmptyString => EmptyString
  end.
End Decoder.

Module Sample.

(** Modelled from the spec: [constants.py] is not among the sources.  The
    spec names the members of [Power] ("ON, OFF") and of [OperationMode]
    ("e.g. AUTO/COOL/HEAT/DRY/FAN") and speaks of "discrete fan levels"
    and "discrete vertical swing positions"; it gives no codes.  The
    levels, positions and codes below are sample values. *)
Inductive SPower : Type := On | Off.
Inductive SOperationMode : Type := Auto | Dry | Cool | Heat | Fan.
Inductive SFanSpeed : Type := Low | Medium | High.
Inductive SAirSwingUD : Type := Up | Middle | Down.

Definition SPower_enum : PyEnum SPower :=
  {| qualname := "Power";
     members := [On; Off];
     value := λ m, match m with On => CInt 1 | Off => CInt 0 end;
     members_all := ltac:(intros []; set_solver);
     value_distinct := ltac:(intros [] []; simpl; congruence) |}.

Definition SOperationMode_enum : PyEnum SOperationMode :=
  {| qualname := "OperationMode";
     members := [Auto; Dry; Cool; Heat; Fan];
     value := λ m, match m with
                   | Auto => CInt 0 | Dry => CInt 1 | Cool => CInt 2
                   | Heat => CInt 3 | Fan => CInt 4
                   end;
     members_all := ltac:(intros []; set_solver);
     value_distinct := ltac:(intros [] []; simpl; congruence) |}.

Definition SFanSpeed_enum : PyEnum SFanSpeed :=
  {| qualname := "FanSpeed";
     members := [Low; Medium; High];
     value := λ m, match m with Low => CInt 2 | Medium => CInt 3 | High => CInt 4 end;
     members_all := ltac:(intros []; set_solver);
     value_distinct := ltac:(intros [] []; simpl; congruence) |}.

Definition SAirSwingUD_enum : PyEnum SAirSwingUD :=
  {| qualname := "AirSwingUD";
     members := [Up; Middle; Down];
     value := λ m, match m with Up => CStr "up" | Middle => CStr "middle" | Down => CStr "down" end;
     members_all := ltac:(intros []; set_solver);
     value_distinct := ltac:(intros [] []; simpl; congruence) |}.

Definition constants : Constants :=
  {| Power := SPower;
     OperationMode := SOperationMode;
     FanSpeed := SFanSpeed;
     AirSwingUD := SAirSwingUD;
     Power_enum := SPower_enum;
     OperationMode_enum := SOperationMode_enum;
     FanSpeed_enum := SFanSpeed_enum;
     AirSwingUD_enum := SAirSwingUD_enum |}.

(** Modelled from the spec: [urls.py] is not among the sources; the spec
    asks for a login URL, a device-list URL and a status URL per device. *)
Definition urls : Urls :=
  {| urls_login := "/login";
     urls_get_devices := "/devices";
     urls_status := λ id, "/devices/" +:+ id |}.

(** A runtime whose transport gives the same answer to every request. *)
Definition scripted (answer : result Response) : Runtime (constants := constants) :=
  {| json_loads := Decoder.loads;
     strftime_now := "2020-01-01T00:00:00";
     package_dir := "/opt/panasoniceolia";
     Transport := unit;
     requests_Session := tt;
     requests_send := λ transport _, (answer, transport) |}.

Definition answers (status_code : Z) (text : string) : Runtime (constants := constants) :=
  scripted (Return {| status_code := status_code; text := Decoder.js text |}).

(** A session of the sample installation, and one that has listed a device
    before. *)
Definition session (runtime : Runtime (constants := constants))
  : Session (runtime := runtime) :=
  __init__ "user" "secret" false true.

Definition old_device : Device.summary :=
  {| Device.id := JStr "A0"; Device.name := JStr "Attic"; Device.model := JStr "CS-0" |}.

Definition session_with_cache (runtime : Runtime (constants := constants))
  : Session (runtime := runtime) :=
  with_devices (Some [old_device]) (session runtime).

End Sample.

(** ** Python equality on codes *)

Lemma py_eq_refl (c : wire_code) : py_eq (code_json c) c = true.
Proof.
  destruct c as [b|z|s]; simpl; auto using Z.eqb_refl, String.eqb_refl.
Qed.

Lemma float_eq_Z_inj (f : spec_float) (a b : Z) :
  float_eq_Z f a = true → float_eq_Z f b = true → a = b.
Proof.
  destruct f as [s| s| |s m e]; simpl; try discriminate.
  - rewrite !Z.eqb_eq. congruence.
  - destruct (0 <=? e) eqn:He; rewrite !Z.eqb_eq; [congruence|].
    intros Ha Hb. apply Z.leb_gt in He.
    assert (0 < 2 ^ (- e)) by (apply Z.pow_pos_nonneg; lia).
    nia.
Qed.

Lemma num_eq_inj (v : json) (a b : Z) :
  num_eq v a = true → num_eq v b = true → a = b.
Proof.
  destruct v; simpl; try discriminate; rewrite ?Z.eqb_eq;
    eauto using float_eq_Z_inj; congruence.
Qed.

(** Two codes equal to the same value are equal to each other. *)
Lemma py_eq_common (v : json) (c1 c2 : wire_code) :
  py_eq v c1 = true → py_eq v c2 = true → py_eq (code_json c1) c2 = true.
Proof.
  destruct c1 as [b1|z1|s1], c2 as [b2|z2|s2]; simpl;
    try (intros H1 H2; rewrite (num_eq_inj _ _ _ H1 H2); apply Z.eqb_refl);
    try (destruct v; simpl; discriminate).
  destruct v; try discriminate.
  rewrite !String.eqb_eq. congruence.
Qed.

(** ** Calling an enumeration *)

Section EnumFacts.
Context {E : Type} `{PyEnum E}.

Lemma enum_call_Return (v : json) (m : E) :
  enum_call E v = Return m → py_eq v (value m) = true.
Proof.
  unfold enum_call. destruct (find _ _) as [m'|] eqn:Hfind; [|discriminate].
  intros [= <-]. by apply find_some in Hfind as [_ ?].
Qed.

Lemma enum_call_known (v : json) (m : E) :
  py_eq v (value m) = true → enum_call E v = Return m.
Proof.
  intros Hm. unfold enum_call.
  destruct (find _ _) as [m'|] eqn:Hfind.
  - apply find_some in Hfind as [_ Hm'].
    f_equal. symmetry. eauto using value_distinct, py_eq_common.
  - eapply find_none with (x := m) in Hfind; [|apply list_elem_of_In, members_all].
    simpl in Hfind. congruence.
Qed.

Lemma enum_call_value (m : E) : enum_call E (code_json (value m)) = Return m.
Proof. apply enum_call_known, py_eq_refl. Qed.

Lemma enum_call_unknown (v : json) :
  (∀ m : E, py_eq v (value m) = false) →
  enum_call E v = Raise (ValueError v (qualname (E:=E))).
Proof.
  intros Hno. unfold enum_call.
  destruct (find _ _) as [m'|] eqn:Hfind; [|done].
  apply find_some in Hfind as [_ Hm']. rewrite Hno in Hm'. discriminate.
Qed.

Lemma enum_call_cases (v : json) :
  (∃ m, enum_call E v = Return m) ∨
  enum_call E v = Raise (ValueError v (qualname (E:=E))).
Proof. unfold enum_call. destruct (find _ _); eauto. Qed.

End EnumFacts.

(** ** Facts on the decode direction *)

Section DecodeFacts.
Context `{constants : Constants}.

Lemma value_in_codes (s : setting) (v : pyobj) (c : wire_code) :
  has_type s v = true → code_of v = Some c → c ∈ codes s.
Proof.
  destruct s, v; try discriminate; intros _ [= <-]; simpl;
    apply list_elem_of_fmap_2, members_all.
Qed.

Lemma known_code_true (s : setting) (x : json) :
  known_code s x = true ↔ ∃ c, c ∈ codes s ∧ py_eq x c = true.
Proof.
  unfold known_code. rewrite existsb_exists.
  split; intros (c & Hc & Hx); exists c; split; auto; by apply list_elem_of_In.
Qed.

Lemma decode_Return (s : setting) (x : json) (v : pyobj) :
  decode s x = Return v →
  has_type s v = true ∧ ∃ c, code_of v = Some c ∧ py_eq x c = true.
Proof.
  destruct s; simpl;
    match goal with |- context [enum_call ?E x] => destruct (enum_call E x) eqn:Hcall end;
    simpl; intros [= <-]; (split; [done|]);
    eexists; (split; [done|]); by apply enum_call_Return.
Qed.

Lemma decode_Raise (s : setting) (x : json) (e : exn) :
  decode s x = Raise e → e = ValueError x (class_name s) ∧ known_code s x = false.
Proof.
  intros Hraise.
  assert (known_code s x = false) as Hunknown.
  { destruct (known_code s x) eqn:Hk; [|done].
    apply known_code_true in Hk as (c & Hc & Hx).
    destruct s; simpl in Hc, Hraise;
      apply list_elem_of_fmap in Hc as (m & -> & _);
      rewrite (enum_call_known _ _ Hx) in Hraise; discriminate. }
  split; [|done].
  destruct s; simpl in *;
    match goal with H : context [enum_call ?E x] |- _ =>
      destruct (enum_call_cases (E:=E) x) as [[m Hm]|Hm]; rewrite Hm in H
    end; simpl in Hraise; congruence.
Qed.

(** Decoding the code of a member gives the member back. *)
Lemma decode_code_of (s : setting) (v : pyobj) (c : wire_code) :
  has_type s v = true → code_of v = Some c → decode s (code_json c) = Return v.
Proof.
  destruct s, v; try discriminate; intros _ [= <-]; simpl;
    by rewrite enum_call_value.
Qed.

(** On a dictionary a field is read when its key is there. *)
Lemma read_field_dict d key name conv (val : gmap string pyobj) :
  read_field (JDict d) key name conv val =
  match d !! key with
  | Some x => y ← conv x; Return (<[name := y]> val)
  | None => Return val
  end.
Proof.
  unfold read_field. simpl. destruct (d !! key) as [x|] eqn:Hd.
  - by rewrite bool_decide_eq_true_2 by eauto.
  - rewrite bool_decide_eq_false_2; [done|]. by intros [? [=]].
Qed.

Lemma read_field_enum d (s : setting) (val : gmap string pyobj) :
  read_field (JDict d) (wire_key s) (domain_key s) (decode s) val = read_enum d s val.
Proof. apply read_field_dict. Qed.

Lemma result_bind_ext {A B : Type} (m m' : result A) (f g : A → result B) :
  m = m' → (∀ a, f a = g a) → m ≫= f = m' ≫= g.
Proof. intros <- Hfg. destruct m; simpl; auto. Qed.

Lemma _read_parameters_dict (d : gmap string json) :
  _read_parameters (JDict d) =
  (val ← read_enum d power (copied d);
   val ← read_enum d mode val;
   val ← read_enum d fanSpeed val;
   read_enum d airSwingVertical val).
Proof.
  unfold _read_parameters, copied, _convert. simpl foldM. simpl foldl.
  rewrite read_field_dict.
  destruct (d !! "inside_temp"); simpl; rewrite read_field_dict;
    (destruct (d !! "outside_temp"); simpl; rewrite read_field_dict;
     (destruct (d !! "temperature"); simpl;
      (apply result_bind_ext; [apply (read_field_enum d power)|intros ?];
       apply result_bind_ext; [apply (read_field_enum d mode)|intros ?];
       apply result_bind_ext; [apply (read_field_enum d fanSpeed)|intros ?];
       apply (read_field_enum d airSwingVertical)))).
Qed.

Lemma read_enum_Return d s val val' :
  read_enum d s val = Return val' →
  (d !! wire_key s = None ∧ val' = val) ∨
  (∃ x v, d !! wire_key s = Some x ∧ decode s x = Return v ∧
          val' = <[domain_key s := v]> val).
Proof.
  unfold read_enum. destruct (d !! wire_key s) as [x|]; [|intros [= <-]; by left].
  destruct (decode s x) as [v|] eqn:Hv; simpl; [|discriminate].
  intros [= <-]. right. eauto.
Qed.

Lemma read_enum_Raise d s val e :
  read_enum d s val = Raise e →
  ∃ x, d !! wire_key s = Some x ∧ decode s x = Raise e.
Proof.
  unfold read_enum. destruct (d !! wire_key s) as [x|]; [|discriminate].
  destruct (decode s x) as [v|] eqn:Hv; simpl; [discriminate|].
  intros [= <-]. eauto.
Qed.

End DecodeFacts.

(** ** Facts on the encode direction *)

Section EncodeFacts.
Context `{constants : Constants}.

Lemma payload_item_encode (payload : gmap string pyobj) (item : string * pyobj) :
  payload_item payload item =
  match encode_item item with
  | Some (w, x) => <[w := x]> payload
  | None => payload
  end.
Proof.
  destruct item as [key v]. unfold payload_item, put_enum, encode_item. simpl find.
  destruct (String.eqb_spec key "power") as [->|?]; [by destruct v|].
  destruct (String.eqb_spec key "temperature") as [->|?]; [by destruct v|].
  destruct (String.eqb_spec key "mode") as [->|?]; [by destruct v|].
  destruct (String.eqb_spec key "fanSpeed") as [->|?]; [by destruct v|].
  by destruct (String.eqb_spec key "airSwingVertical") as [->|?]; [destruct v|].
Qed.

Lemma encode_item_Some key v w x :
  encode_item (key, v) = Some (w, x) →
  (key = "temperature" ∧ w = "temperature" ∧ x = v) ∨
  (∃ s c, key = domain_key s ∧ w = wire_key s ∧ has_type s v = true ∧
          code_of v = Some c ∧ x = Plain (code_json c)).
Proof.
  unfold encode_item.
  destruct (String.eqb_spec key "temperature") as [->|_]; [intros [= <- <-]; by left|].
  destruct (find _ _) as [s|] eqn:Hfind; simpl; [|discriminate].
  apply find_some in Hfind as [_ Hs%String.eqb_eq].
  destruct (has_type s v) eqn:Ht; [|discriminate].
  destruct (code_of v) as [c|] eqn:Hc; simpl; [|discriminate].
  intros [= <- <-]. right. by exists s, c.
Qed.

Lemma encode_item_temperature v : encode_item ("temperature", v) = Some ("temperature", v).
Proof. done. Qed.

Lemma encode_item_setting (s : setting) v :
  encode_item (domain_key s, v) =
  if has_type s v then (λ c, (wire_key s, Plain (code_json c))) <$> code_of v else None.
Proof. by destruct s. Qed.

(** The key a wire key is written from. *)
Lemma encode_item_key key key' v v' w x x' :
  encode_item (key, v) = Some (w, x) → encode_item (key', v') = Some (w, x') → key = key'.
Proof.
  intros [(-> & -> & _)|(s & c & -> & -> & _)]%encode_item_Some
         [(-> & Hw & _)|(s' & c' & -> & Hw & _)]%encode_item_Some;
    try done; try (by destruct s); try (by destruct s').
  by destruct s, s'.
Qed.

Lemma foldl_payload_item_other payload kwargs w :
  (∀ item x, item ∈ kwargs → encode_item item ≠ Some (w, x)) →
  foldl payload_item payload kwargs !! w = payload !! w.
Proof.
  revert payload. induction kwargs as [|item kwargs IH]; intros payload Hno; [done|].
  simpl. rewrite IH by (intros; apply Hno; by right).
  rewrite payload_item_encode.
  destruct (encode_item item) as [[w' x]|] eqn:Hitem; [|done].
  apply lookup_insert_ne. intros ->. eapply Hno; [by left|done].
Qed.

Lemma foldl_payload_item_written payload kwargs key v w x :
  NoDup kwargs.*1 → (key, v) ∈ kwargs → encode_item (key, v) = Some (w, x) →
  foldl payload_item payload kwargs !! w = Some x.
Proof.
  revert payload. induction kwargs as [|[key' v'] kwargs IH]; intros payload Hnd Hin Hw.
  { by apply elem_of_nil in Hin. }
  simpl in Hnd. apply NoDup_cons in Hnd as [Hfresh Hnd].
  apply elem_of_cons in Hin as [[= <- <-]|Hin]; cbn [foldl].
  - rewrite foldl_payload_item_other.
    + rewrite payload_item_encode, Hw. apply lookup_insert_eq.
    + intros [key'' v''] x' Hin' Hw'.
      apply Hfresh. rewrite (encode_item_key _ _ _ _ _ _ _ Hw Hw').
      apply list_elem_of_fmap. by exists (key'', v'').
  - by apply IH.
Qed.

Lemma NoDup_fst_agree {A B : Type} (l : list (A * B)) k v v' :
  NoDup l.*1 → (k, v) ∈ l → (k, v') ∈ l → v = v'.
Proof.
  induction l as [|[k0 v0] l IH]; intros Hnd Hin Hin'.
  { by apply elem_of_nil in Hin. }
  simpl in Hnd. apply NoDup_cons in Hnd as [Hfresh Hnd].
  apply elem_of_cons in Hin as [Hin|Hin]; apply elem_of_cons in Hin' as [Hin'|Hin'];
    auto; simplify_eq; try done.
  - exfalso. apply Hfresh. apply list_elem_of_fmap. by exists (k0, v').
  - exfalso. apply Hfresh. apply list_elem_of_fmap. by exists (k0, v).
Qed.

Lemma foldl_payload_item_unwritten payload kwargs key v w :
  NoDup kwargs.*1 → (key, v) ∈ kwargs →
  (∀ key' v' x, encode_item (key', v') = Some (w, x) → key' = key) →
  (∀ x, encode_item (key, v) ≠ Some (w, x)) →
  foldl payload_item payload kwargs !! w = payload !! w.
Proof.
  intros Hnd Hin Hkey Hnot.
  apply foldl_payload_item_other. intros [key' v'] x Hin' Hw.
  assert (key' = key) as -> by eauto.
  assert (v' = v) as -> by eauto using NoDup_fst_agree.
  by eapply Hnot.
Qed.

Lemma encode_item_wire_key key v (s : setting) x :
  encode_item (key, v) = Some (wire_key s, x) → key = domain_key s.
Proof.
  intros [(-> & Hw & _)|(s' & c & -> & Hw & _)]%encode_item_Some.
  - by destruct s.
  - by destruct s, s'.
Qed.

Lemma encode_item_wire_temperature key v x :
  encode_item (key, v) = Some ("temperature", x) → key = "temperature".
Proof.
  intros [(-> & _)|(s' & c & -> & Hw & _)]%encode_item_Some; [done|by destruct s'].
Qed.

Lemma build_payload_fixed kwargs w x :
  (w, x) ∈ fixed_fields → build_payload kwargs !! w = Some x.
Proof.
  unfold fixed_fields, build_payload. rewrite !elem_of_cons, elem_of_nil.
  intros [[= -> ->]|[[= -> ->]|[[= -> ->]|[[= -> ->]|[]]]]]; by simplify_map_eq.
Qed.

Lemma build_payload_other kwargs w :
  w ∉ fixed_fields.*1 →
  build_payload kwargs !! w = foldl payload_item ∅ kwargs !! w.
Proof.
  unfold fixed_fields, build_payload. simpl.
  rewrite !not_elem_of_cons. intros (? & ? & ? & ? & _).
  by rewrite !lookup_insert_ne.
Qed.

End EncodeFacts.

(** ** The decoded parameter set comes from the input *)

Section ReadParameters.
Context `{constants : Constants}.

Lemma explained_empty d : explained d ∅.
Proof. intros name [x Hx]. by rewrite lookup_empty in Hx. Qed.

Lemma explained_insert d val key name v :
  explained d val → (key, name) ∈ translation → is_Some (d !! key) →
  explained d (<[name := v]> val).
Proof.
  intros Hval Hkey Hd name'. destruct (decide (name = name')) as [<-|Hne]; [eauto|].
  rewrite lookup_insert_ne by done. apply Hval.
Qed.

Lemma copied_explained d : explained d (copied d).
Proof.
  unfold copied, _convert. simpl.
  destruct (d !! "inside_temp") eqn:Hin, (d !! "outside_temp") eqn:Hout,
    (d !! "temperature") eqn:Htemp;
    repeat (eapply explained_insert;
            [|apply list_elem_of_In; simpl; eauto 10|rewrite ?Hin, ?Hout, ?Htemp; eauto]);
    apply explained_empty.
Qed.

Lemma setting_in_translation (s : setting) : (wire_key s, domain_key s) ∈ translation.
Proof. unfold translation, _convert. destruct s; set_solver. Qed.

Lemma read_enum_explained d s val val' :
  explained d val → read_enum d s val = Return val' → explained d val'.
Proof.
  intros Hval [[_ ->]|(x & v & Hx & _ & ->)]%read_enum_Return; [done|].
  eapply explained_insert; eauto using setting_in_translation.
Qed.

Lemma translation_inj key key' name :
  (key, name) ∈ translation → (key', name) ∈ translation → key = key'.
Proof.
  unfold translation, _convert. simpl. rewrite !elem_of_cons, !elem_of_nil.
  intros H1 H2. destruct_or!; simplify_eq; done.
Qed.

Lemma copied_lookup_setting d (s : setting) : copied d !! domain_key s = None.
Proof.
  unfold copied, _convert. simpl.
  destruct (d !! "inside_temp"), (d !! "outside_temp"), (d !! "temperature"), s;
    by simplify_map_eq.
Qed.

Lemma _read_parameters_explained d val :
  _read_parameters (JDict d) = Return val → explained d val.
Proof.
  rewrite _read_parameters_dict.
  destruct (read_enum d power _) as [v1|] eqn:H1; simpl; [|discriminate].
  destruct (read_enum d mode _) as [v2|] eqn:H2; simpl; [|discriminate].
  destruct (read_enum d fanSpeed _) as [v3|] eqn:H3; simpl; [|discriminate].
  intros H4.
  eauto using read_enum_explained, copied_explained.
Qed.

(** A failure on a dictionary comes from one of the four decoded fields. *)
Lemma _read_parameters_Raise d e :
  _read_parameters (JDict d) = Raise e →
  ∃ s x, d !! wire_key s = Some x ∧ decode s x = Raise e.
Proof.
  rewrite _read_parameters_dict.
  destruct (read_enum d power _) as [v1|] eqn:H1; simpl;
    [|intros [= <-]; apply read_enum_Raise in H1 as (x & ? & ?); by exists power, x].
  destruct (read_enum d mode _) as [v2|] eqn:H2; simpl;
    [|intros [= <-]; apply read_enum_Raise in H2 as (x & ? & ?); by exists mode, x].
  destruct (read_enum d fanSpeed _) as [v3|] eqn:H3; simpl;
    [|intros [= <-]; apply read_enum_Raise in H3 as (x & ? & ?); by exists fanSpeed, x].
  intros H4. apply read_enum_Raise in H4 as (x & ? & ?). by exists airSwingVertical, x.
Qed.

(** On success each decoded field holds the member its code stands for. *)
Lemma _read_parameters_Return d val (s : setting) :
  _read_parameters (JDict d) = Return val →
  match d !! wire_key s with
  | Some x => ∃ v, decode s x = Return v ∧ val !! domain_key s = Some v
  | None => val !! domain_key s = None
  end.
Proof.
  rewrite _read_parameters_dict. pose proof (copied_lookup_setting d s) as Hc.
  destruct (read_enum d power _) as [v1|] eqn:H1; simpl; [|discriminate].
  destruct (read_enum d mode _) as [v2|] eqn:H2; simpl; [|discriminate].
  destruct (read_enum d fanSpeed _) as [v3|] eqn:H3; simpl; [|discriminate].
  intros H4.
  apply read_enum_Return in H1 as [[Hp ->]|(xp & vp & Hp & Hdp & ->)];
    apply read_enum_Return in H2 as [[Hm ->]|(xm & vm & Hm & Hdm & ->)];
    apply read_enum_Return in H3 as [[Hf ->]|(xf & vf & Hf & Hdf & ->)];
    apply read_enum_Return in H4 as [[Ha ->]|(xa & va & Ha & Hda & ->)];
    destruct s; simpl in *;
    repeat match goal with H : d !! _ = _ |- _ => rewrite H; clear H end;
    simplify_map_eq; eauto.
Qed.

End ReadParameters.

(** C4. For every partial wire document [d], when [_read_parameters]
    returns a parameter set, each of its keys is the translation of a wire
    key that is present in [d] (the output key set is within the image of
    the input keys that the translation table knows), and a wire key absent
    from [d] leaves its domain key without any value: no default is made up. *)
Theorem read_parameters_keys_from_input `{constants : Constants}
    (d : gmap string json) (val : gmap string pyobj) :
  _read_parameters (JDict d) = Return val →
  (∀ name, name ∈ dom val → ∃ key, (key, name) ∈ translation ∧ key ∈ dom d) ∧
  (∀ key name, (key, name) ∈ translation → key ∉ dom d → val !! name = None).
Proof.
  intros Hval. apply _read_parameters_explained in Hval.
  assert (∀ name, name ∈ dom val → ∃ key, (key, name) ∈ translation ∧ key ∈ dom d) as Hsub.
  { intros name Hname%elem_of_dom. destruct (Hval name Hname) as (key & Hkey & Hd).
    exists key. split; [done|]. by apply elem_of_dom. }
  split; [done|].
  intros key name Hkey Habsent.
  destruct (val !! name) as [x|] eqn:Hx; [|done].
  destruct (Hsub name) as (key' & Hkey' & Hd); [apply elem_of_dom; eauto|].
  by rewrite (translation_inj _ _ _ Hkey Hkey') in Habsent.
Qed.

(** C6. When a wire document holds, under the wire key of an
    enumeration-backed setting, a value outside the known code set of that
    setting, [_read_parameters] raises the [ValueError] of an enumeration
    called on a value it does not know: it returns no parameter set, and so
    substitutes no fallback or default. *)
Theorem read_parameters_unknown_code `{constants : Constants}
    (d : gmap string json) (s : setting) (x : json) :
  d !! wire_key s = Some x → known_code s x = false →
  ∃ s' x', d !! wire_key s' = Some x' ∧ known_code s' x' = false ∧
           _read_parameters (JDict d) = Raise (ValueError x' (class_name s')).
Proof.
  intros Hx Hunknown.
  destruct (_read_parameters (JDict d)) as [val|e] eqn:Hread.
  - pose proof (_read_parameters_Return d val s Hread) as Hs. rewrite Hx in Hs.
    destruct Hs as (v & (Ht & c & Hc & Heq)%decode_Return & _).
    assert (known_code s x = true) as Hk; [|congruence].
    apply known_code_true. eauto using value_in_codes.
  - apply _read_parameters_Raise in Hread as (s' & x' & Hx' & [-> Hk]%decode_Raise).
    eauto.
Qed.

(** ** The payload of [set_device] *)

Section Payload.
Context `{constants : Constants}.

Lemma wire_key_not_fixed (s : setting) : wire_key s ∉ fixed_fields.*1.
Proof. unfold fixed_fields. destruct s; set_solver. Qed.

Lemma temperature_not_fixed : "temperature" ∉ fixed_fields.*1.
Proof. unfold fixed_fields. set_solver. Qed.

(** The wire key of a supplied enumeration-backed setting holds the code
    of the member, or nothing when the value is not a member of the class. *)
Lemma build_payload_setting kwargs (s : setting) v :
  NoDup kwargs.*1 → (domain_key s, v) ∈ kwargs →
  build_payload kwargs !! wire_key s =
  if has_type s v then (λ c, Plain (code_json c)) <$> code_of v else None.
Proof.
  intros Hnd Hin. rewrite build_payload_other by apply wire_key_not_fixed.
  pose proof (encode_item_setting s v) as Henc.
  destruct (has_type s v) eqn:Ht.
  - destruct (code_of v) as [c|] eqn:Hc; [|by destruct s, v].
    eapply foldl_payload_item_written; eauto.
  - erewrite foldl_payload_item_unwritten; eauto using encode_item_wire_key.
    intros x. by rewrite Henc.
Qed.

(** A supplied [temperature] is copied whatever it is. *)
Lemma build_payload_temperature kwargs v :
  NoDup kwargs.*1 → ("temperature", v) ∈ kwargs →
  build_payload kwargs !! "temperature" = Some v.
Proof.
  intros Hnd Hin. rewrite build_payload_other by apply temperature_not_fixed.
  eapply foldl_payload_item_written; eauto.
Qed.

End Payload.

(** C2, as amended. For every call of [set_device] and every supplied
    setting: if it is one of [power], [mode], [fanSpeed] and
    [airSwingVertical], its wire key is in the payload exactly when the
    value is a member of the class expected for it, and a value of another
    type is left out without any error ([build_payload] is total); if it is
    [temperature], its value is copied into the payload whatever its
    type. *)
Theorem set_device_payload_settings `{constants : Constants}
    (kwargs : list (string * pyobj)) (key : string) (v : pyobj) :
  NoDup kwargs.*1 → (key, v) ∈ kwargs →
  (∀ s : setting, key = domain_key s →
     (is_Some (build_payload kwargs !! wire_key s) ↔ has_type s v = true)) ∧
  (key = "temperature" → build_payload kwargs !! "temperature" = Some v).
Proof.
  intros Hnd Hin. split.
  - intros s ->. rewrite (build_payload_setting kwargs s v) by done.
    destruct (has_type s v) eqn:Ht.
    + split; [done|]. intros _. destruct s, v; try discriminate; simpl; eauto.
    + split; [by intros [? [=]]|done].
  - intros ->. by apply build_payload_temperature.
Qed.

Section SamplePayload.
#[local] Existing Instance Sample.constants.

(** The claim C2 as stated fails for [temperature]: a string is sent. *)
Lemma set_device_sends_temperature_of_any_type :
  let kwargs := [("temperature", Plain (JStr "warm"))] in
  ¬ (is_Some (build_payload kwargs !! "temperature") ↔
     is_number (Plain (JStr "warm")) = true).
Proof. simpl. intros [Hsent _]. by discriminate Hsent. Qed.

Lemma set_device_payload_settings_witness :
  let kwargs := [("power", OfPower Sample.On);
                 ("mode", Plain (JStr "cool"));
                 ("temperature", Plain (JStr "warm"))] in
  is_Some (build_payload kwargs !! "operation_status") ∧
  build_payload kwargs !! "operation_mode" = None ∧
  build_payload kwargs !! "temperature" = Some (Plain (JStr "warm")).
Proof.
  intros kwargs.
  assert (NoDup kwargs.*1) as Hnd by (by apply (bool_decide_unpack _)).
  split; [|split].
  - apply (proj1 (set_device_payload_settings kwargs "power"
                    (OfPower (constants := Sample.constants) Sample.On) Hnd
                    ltac:(apply list_elem_of_In; simpl; tauto)) power eq_refl).
    reflexivity.
  - destruct (build_payload kwargs !! "operation_mode") eqn:Hmode; [|done].
    assert (is_Some (build_payload kwargs !! wire_key mode)) as Hsome by (simpl; eauto).
    apply (proj1 (set_device_payload_settings kwargs "mode" (Plain (JStr "cool")) Hnd
                    ltac:(apply list_elem_of_In; simpl; tauto)) mode eq_refl) in Hsome.
    discriminate Hsome.
  - apply (proj2 (set_device_payload_settings kwargs "temperature" (Plain (JStr "warm")) Hnd
                    ltac:(apply list_elem_of_In; simpl; tauto))).
    reflexivity.
Defined.

End SamplePayload.

(** ** The codec in both directions *)

Section RoundTrip.
Context `{constants : Constants}.

Lemma codes_member (s : setting) (c : wire_code) :
  c ∈ codes s → ∃ v, has_type s v = true ∧ code_of v = Some c.
Proof.
  destruct s; simpl; intros (m & -> & _)%list_elem_of_fmap;
    [by exists (OfPower m)|by exists (OfOperationMode m)
    |by exists (OfFanSpeed m)|by exists (OfAirSwingUD m)].
Qed.

Lemma encode_single (s : setting) v c :
  has_type s v = true → code_of v = Some c →
  build_payload [(domain_key s, v)] !! wire_key s = Some (Plain (code_json c)).
Proof.
  intros Ht Hc. rewrite (build_payload_setting _ s v), Ht, Hc; [done| |set_solver].
  apply NoDup_singleton.
Qed.

Lemma decode_single (s : setting) v c :
  has_type s v = true → code_of v = Some c →
  _read_parameters (JDict {[wire_key s := code_json c]}) = Return {[domain_key s := v]}.
Proof.
  intros Ht Hc. pose proof (decode_code_of s v c Ht Hc) as Hd.
  rewrite _read_parameters_dict. unfold copied, _convert, read_enum. simpl foldl.
  destruct s; simpl wire_key in *; simpl domain_key;
    repeat (rewrite lookup_singleton_ne by done);
    rewrite lookup_singleton_eq, Hd; simpl;
    repeat (rewrite lookup_singleton_ne by done); simpl;
    by rewrite insert_empty.
Qed.

End RoundTrip.

(** C3. The codec round-trips on each of [power], [mode], [fanSpeed] and
    [airSwingVertical]: the code [set_device] writes for a member under the
    wire key of the setting is decoded by [_read_parameters] to that member;
    and a code of the known code set is decoded to a member for which
    [set_device] writes the same code again. *)
Theorem codec_round_trip `{constants : Constants} (s : setting) :
  (∀ v, has_type s v = true →
     ∃ c, build_payload [(domain_key s, v)] !! wire_key s = Some (Plain (code_json c)) ∧
          _read_parameters (JDict {[wire_key s := code_json c]}) =
            Return {[domain_key s := v]}) ∧
  (∀ c, c ∈ codes s →
     ∃ v, _read_parameters (JDict {[wire_key s := code_json c]}) =
            Return {[domain_key s := v]} ∧
          build_payload [(domain_key s, v)] !! wire_key s = Some (Plain (code_json c))).
Proof.
  split.
  - intros v Ht.
    assert (∃ c, code_of v = Some c) as [c Hc] by (destruct s, v; try discriminate; eauto).
    exists c. eauto using encode_single, decode_single.
  - intros c (v & Ht & Hc)%codes_member.
    exists v. eauto using encode_single, decode_single.
Qed.

(** C5. Whatever the caller passes, the payload holds the four fixed
    fields with their constants; and for [power=ON, temperature=23] it holds
    [operation_status], [temperature] and the four fixed fields, and no
    other key. *)
Theorem set_device_fixed_fields `{constants : Constants} :
  (∀ kwargs : list (string * pyobj),
     build_payload kwargs !! "airquality" = Some (Plain (JBool false)) ∧
     build_payload kwargs !! "nanoex" = Some (Plain (JBool true)) ∧
     build_payload kwargs !! "silence_control" = Some (Plain (JBool false)) ∧
     build_payload kwargs !! "timer_value" = Some (Plain (JInt 0))) ∧
  (∀ on : Power,
     let payload := build_payload [("power", OfPower on); ("temperature", Plain (JInt 23))] in
     payload !! "operation_status" = Some (Plain (code_json (value on))) ∧
     payload !! "temperature" = Some (Plain (JInt 23)) ∧
     dom payload = {[ "operation_status"; "temperature"; "airquality"; "nanoex";
                      "silence_control"; "timer_value" ]}).
Proof.
  split.
  - intros kwargs.
    split; [|split; [|split]]; apply build_payload_fixed; unfold fixed_fields; set_solver.
  - intros on payload. subst payload. split; [|split].
    + by apply (encode_single power (OfPower on)).
    + apply build_payload_temperature; [by apply (bool_decide_unpack _)|set_solver].
    + unfold build_payload. simpl. unfold put_enum. simpl.
      rewrite !dom_insert_L, dom_empty_L. set_solver.
Qed.

Section SampleCodec.
#[local] Existing Instance Sample.constants.

Lemma codec_round_trip_witness :
  (∃ c, build_payload [("mode", OfOperationMode (constants := Sample.constants) Sample.Heat)]
          !! "operation_mode" = Some (Plain (code_json c)) ∧
        _read_parameters (JDict {["operation_mode" := code_json c]}) =
          Return {["mode" := OfOperationMode (constants := Sample.constants) Sample.Heat]}) ∧
  (∃ v, _read_parameters (JDict {["operation_mode" := JInt 3]}) = Return {["mode" := v]} ∧
        build_payload [("mode", v)] !! "operation_mode" = Some (Plain (JInt 3))).
Proof.
  split.
  - apply (proj1 (codec_round_trip mode)
             (OfOperationMode (constants := Sample.constants) Sample.Heat)).
    reflexivity.
  - apply (proj2 (codec_round_trip mode) (CInt 3)).
    apply list_elem_of_In. simpl. tauto.
Defined.

(** The scenario of C5 in the sample installation. *)
Lemma set_device_power_on_23 :
  build_payload [("power", OfPower (constants := Sample.constants) Sample.On);
                 ("temperature", Plain (JInt 23))] =
  <["operation_status" := Plain (JInt 1)]>
    (<["temperature" := Plain (JInt 23)]> (list_to_map fixed_fields)).
Proof. reflexivity. Qed.

Lemma read_parameters_keys_from_input_witness :
  let d : gmap string json :=
    {[ "inside_temp" := JInt 21; "operation_mode" := JInt 2; "nanoex" := JBool true ]} in
  ∃ val : gmap string pyobj,
    _read_parameters (JDict d) = Return val ∧
    (∀ name, name ∈ dom val → ∃ key, (key, name) ∈ translation ∧ key ∈ dom d) ∧
    (∀ key name, (key, name) ∈ translation → key ∉ dom d → val !! name = None).
Proof.
  intros d.
  exists {[ "temperatureInside" := Plain (JInt 21);
            "mode" := OfOperationMode (constants := Sample.constants) Sample.Cool ]}.
  assert (_read_parameters (JDict d) =
          Return {[ "temperatureInside" := Plain (JInt 21);
                    "mode" := OfOperationMode (constants := Sample.constants) Sample.Cool ]})
    as Hread by reflexivity.
  split; [exact Hread|].
  exact (read_parameters_keys_from_input d _ Hread).
Defined.

(** The example of C6: [operation_mode: 999]. *)
Lemma read_parameters_unknown_code_witness :
  let d : gmap string json := {[ "operation_mode" := JInt 999; "temperature" := JInt 23 ]} in
  ∃ s' x', d !! wire_key s' = Some x' ∧ known_code s' x' = false ∧
           _read_parameters (JDict d) = Raise (ValueError x' (class_name s')).
Proof.
  intros d.
  apply (read_parameters_unknown_code d mode (JInt 999)); reflexivity.
Defined.

Lemma read_parameters_operation_mode_999 :
  _read_parameters (JDict {[ "operation_mode" := JInt 999; "temperature" := JInt 23 ]}) =
  Raise (ValueError (JInt 999) "OperationMode").
Proof. reflexivity. Qed.

End SampleCodec.

(** ** Running the methods *)

Section SessionFacts.
Context `{constants : Constants} `{urls : Urls} `{runtime : !Runtime}.

(* The status tests stay as written while the monad is unfolded. *)
#[local] Arguments Z.eqb : simpl never.

Ltac run :=
  unfold login, get_devices, dump, get_device, get_status, set_device,
    _validate_response, raise_ResponseError, new_ResponseError, loads,
    except_RequestException, session_request, set__devices,
    bind, attr, ret, raise, lift;
  simpl.

(* Settles the tests on the status code, wherever they show up. *)
Ltac gate H := repeat (first [rewrite H | rewrite Z.eqb_sym, H]; simpl).

(** *** A transport that raises *)

Lemma login_transport_failure self detail transport :
  requests_send (_session self)
    (login_request (login_payload (_username self) (_password self)) (_verifySsl self)) =
    (Raise (RequestException detail), transport) →
  (login self).1 = Raise (LoginError (RequestException detail)).
Proof. intros Hsend. run. by rewrite Hsend. Qed.

Lemma get_devices_transport_failure self detail transport :
  requests_send (_session self) (devices_request (_verifySsl self)) =
    (Raise (RequestException detail), transport) →
  (get_devices self).1 = Raise (Error (RequestException detail)).
Proof. intros Hsend. run. by rewrite Hsend. Qed.

Lemma status_transport_failure self id detail transport :
  requests_send (_session self) (status_request id (_verifySsl self)) =
    (Raise (RequestException detail), transport) →
  (get_device id self).1 = Raise (RequestError (RequestException detail)) ∧
  (dump id self).1 = Raise (RequestError (RequestException detail)).
Proof. intros Hsend. run. by rewrite Hsend. Qed.

Lemma set_device_transport_failure self id kwargs detail transport :
  requests_send (_session self)
    (control_request id (build_payload kwargs) (_verifySsl self)) =
    (Raise (RequestException detail), transport) →
  (set_device id kwargs self).1 = Raise (RequestError (RequestException detail)).
Proof. intros Hsend. run. by rewrite Hsend. Qed.

(** *** A response outside the accepted range *)

(** When the body is a JSON text the exception is built: it carries the
    status code, the decoded body, and the body as received at the end of
    its message. *)
Lemma new_ResponseError_decoded status_code text data :
  json_loads text = Some data →
  new_ResponseError status_code text =
  Return (ResponseError (invalid_response status_code text) status_code data).
Proof. intros Hdata. unfold new_ResponseError. by rewrite Hdata. Qed.

Lemma new_ResponseError_undecoded status_code text :
  json_loads text = None →
  new_ResponseError status_code text = Raise (JSONDecodeError text).
Proof. intros Hdata. unfold new_ResponseError. by rewrite Hdata. Qed.

Lemma login_bad_status self response transport data :
  requests_send (_session self)
    (login_request (login_payload (_username self) (_password self)) (_verifySsl self)) =
    (Return response, transport) →
  status_code response / 100 ≠ 2 →
  json_loads (text response) = Some data →
  (login self).1 =
  Raise (ResponseError (invalid_response (status_code response) (text response))
           (status_code response) data).
Proof.
  intros Hsend Hstatus%Z.eqb_neq Hdata. run. rewrite Hsend. simpl.
  gate Hstatus. rewrite Hdata. by simpl.
Qed.

(** C1, as amended. [get_device] and [dump] require the status code 200,
    [set_device] any code from 200 to 299.  For every response whose body
    is a JSON text: [get_device] and [dump] raise [ResponseError] with the
    status code of the response when it is not 200 (201 among others);
    [set_device] raises [ResponseError] with that status code when it is
    outside 200..299, and returns [True] when it is inside. *)
Theorem status_code_contract (self : Session) (id : string)
    (kwargs : list (string * pyobj)) (response : Response) (data : json)
    (transport : Transport) :
  json_loads (text response) = Some data →
  (requests_send (_session self) (status_request id (_verifySsl self)) =
     (Return response, transport) →
   status_code response ≠ 200 →
   (get_device id self).1 =
     Raise (ResponseError (invalid_response (status_code response) (text response))
              (status_code response) data) ∧
   (dump id self).1 =
     Raise (ResponseError (invalid_response (status_code response) (text response))
              (status_code response) data)) ∧
  (requests_send (_session self)
     (control_request id (build_payload kwargs) (_verifySsl self)) =
     (Return response, transport) →
   (status_code response / 100 ≠ 2 →
    (set_device id kwargs self).1 =
      Raise (ResponseError (invalid_response (status_code response) (text response))
               (status_code response) data)) ∧
   (status_code response / 100 = 2 → (set_device id kwargs self).1 = Return true)).
Proof.
  intros Hdata. split.
  - intros Hsend Hstatus%Z.eqb_neq. run. rewrite Hsend. simpl.
    gate Hstatus. rewrite Hdata. simpl. by split.
  - intros Hsend. split.
    + intros Hstatus%Z.eqb_neq. run. rewrite Hsend. simpl.
      gate Hstatus. rewrite Hdata. by simpl.
    + intros Hstatus%Z.eqb_eq. run. rewrite Hsend. simpl.
      gate Hstatus. rewrite Hdata. by simpl.
Qed.

(** *** The loop of [get_devices] *)

Lemma get_devices_entry_run device acc self :
  get_devices_entry device (with_devices (Some acc) self) =
  match entry_summary device with
  | Return summary => (Return tt, with_devices (Some (acc ++ [summary])) self)
  | Raise e => (Raise e, with_devices (Some acc) self)
  end.
Proof.
  unfold get_devices_entry, bind, lift, _devices_append.
  by destruct (entry_summary device).
Qed.

Lemma for_each_entries_Return entries acc self self' :
  for_each get_devices_entry entries (with_devices (Some acc) self) = (Return tt, self') →
  ∃ summaries,
    Forall2 (λ entry summary, entry_summary entry = Return summary) entries summaries ∧
    self' = with_devices (Some (acc ++ summaries)) self.
Proof.
  revert acc. induction entries as [|entry entries IH]; intros acc; simpl.
  - unfold ret. intros [= <-]. exists []. split; [constructor|]. by rewrite app_nil_r.
  - unfold bind at 1. rewrite get_devices_entry_run.
    destruct (entry_summary entry) as [summary|e] eqn:Hentry; [|discriminate].
    intros (summaries & Hall & ->)%IH.
    exists (summary :: summaries). split; [by constructor|].
    by rewrite <- app_assoc.
Qed.

Lemma for_each_entries_all entries summaries acc self :
  Forall2 (λ entry summary, entry_summary entry = Return summary) entries summaries →
  for_each get_devices_entry entries (with_devices (Some acc) self) =
  (Return tt, with_devices (Some (acc ++ summaries)) self).
Proof.
  intros Hall. revert acc.
  induction Hall as [|entry summary entries summaries Hentry _ IH]; intros acc; simpl.
  - by rewrite app_nil_r.
  - unfold bind at 1. rewrite get_devices_entry_run, Hentry, IH.
    by rewrite <- app_assoc.
Qed.

(** A failure inside the loop keeps the entries appended before it. *)
Lemma for_each_entries_Raise entries acc self e self' :
  for_each get_devices_entry entries (with_devices (Some acc) self) = (Raise e, self') →
  ∃ summaries, self' = with_devices (Some (acc ++ summaries)) self ∧
               (length summaries < length entries)%nat.
Proof.
  revert acc. induction entries as [|entry entries IH]; intros acc; simpl; [discriminate|].
  unfold bind at 1. rewrite get_devices_entry_run.
  destruct (entry_summary entry) as [summary|e'] eqn:Hentry.
  - intros (summaries & -> & Hlen)%IH.
    exists (summary :: summaries). rewrite <- app_assoc. split; [done|simpl; lia].
  - intros [= <- <-]. exists []. rewrite app_nil_r. split; [done|simpl; lia].
Qed.

Lemma entry_summary_Return entry summary :
  entry_summary entry = Return summary ↔
  py_getitem entry "appliance_id" = Return (Device.id summary) ∧
  py_getitem entry "nickname" = Return (Device.name summary) ∧
  py_getitem entry "product_code" = Return (Device.model summary).
Proof.
  unfold entry_summary. destruct summary as [i n m]. simpl.
  destruct (py_getitem entry "appliance_id"); simpl; [|naive_solver].
  destruct (py_getitem entry "nickname"); simpl; [|naive_solver].
  destruct (py_getitem entry "product_code"); simpl; naive_solver.
Qed.

(** *** [get_devices] from its answer *)

(** What [get_devices] does once the transport has answered with a status
    in 200..299. *)
Lemma get_devices_answered self response transport :
  requests_send (_session self) (devices_request (_verifySsl self)) =
    (Return response, transport) →
  status_code response / 100 = 2 →
  get_devices self =
  let self1 := with_devices (Some []) (with_session transport self) in
  match json_loads (text response) with
  | None => (Raise (JSONDecodeError (text response)), self1)
  | Some document =>
      match py_getitem document "ac_list" with
      | Raise e => (Raise e, self1)
      | Return devices =>
          match py_iter devices with
          | Raise e => (Raise e, self1)
          | Return entries =>
              match for_each get_devices_entry entries self1 with
              | (Return _, self2) => (Return (_devices self2), self2)
              | (Raise e, self2) => (Raise e, self2)
              end
          end
      end
  end.
Proof.
  intros Hsend Hstatus%Z.eqb_eq. run. rewrite Hsend. simpl.
  gate Hstatus.
  destruct (json_loads (text response)) as [document|]; [|done]. simpl.
  destruct (py_getitem document "ac_list") as [devices|]; [|done].
  destruct (py_iter devices) as [entries|]; [|done].
  change (with_session transport (with_devices (Some []) self))
    with (with_devices (Some []) (with_session transport self)).
  by destruct (for_each get_devices_entry entries _) as [[[]|e] self2].
Qed.

Lemma get_devices_unanswered self e transport :
  requests_send (_session self) (devices_request (_verifySsl self)) = (Raise e, transport) →
  ∃ e', get_devices self = (Raise e', with_devices (Some []) (with_session transport self)).
Proof.
  intros Hsend. run. rewrite Hsend. simpl.
  destruct e; eauto.
Qed.

Lemma get_devices_bad_status self response transport :
  requests_send (_session self) (devices_request (_verifySsl self)) =
    (Return response, transport) →
  status_code response / 100 ≠ 2 →
  ∃ e', get_devices self = (Raise e', with_devices (Some []) (with_session transport self)).
Proof.
  intros Hsend Hstatus%Z.eqb_neq. run. rewrite Hsend. simpl.
  gate Hstatus.
  destruct (json_loads (text response)); simpl; eauto.
Qed.

(** C9. When [get_devices] returns, the transport has answered with a
    response whose body decodes to a document with an [ac_list] field, and
    the list returned (which is also the cached one) has one summary per
    entry of that field, in the order of the entries, the [id], [name] and
    [model] of a summary being the [appliance_id], [nickname] and
    [product_code] of its entry as they are. *)
Theorem get_devices_summaries (self self' : Session)
    (returned : option (list Device.summary)) :
  get_devices self = (Return returned, self') →
  ∃ response transport document devices entries summaries,
    requests_send (_session self) (devices_request (_verifySsl self)) =
      (Return response, transport) ∧
    json_loads (text response) = Some document ∧
    py_getitem document "ac_list" = Return devices ∧
    py_iter devices = Return entries ∧
    Forall2 (λ entry summary,
               py_getitem entry "appliance_id" = Return (Device.id summary) ∧
               py_getitem entry "nickname" = Return (Device.name summary) ∧
               py_getitem entry "product_code" = Return (Device.model summary))
            entries summaries ∧
    returned = Some summaries ∧
    _devices self' = Some summaries.
Proof.
  intros Hrun.
  destruct (requests_send (_session self) (devices_request (_verifySsl self)))
    as [[response|e] transport] eqn:Hsend.
  2:{ destruct (get_devices_unanswered _ _ _ Hsend) as [e' He']. congruence. }
  destruct (decide (status_code response / 100 = 2)) as [Hstatus|Hstatus].
  2:{ destruct (get_devices_bad_status _ _ _ Hsend Hstatus) as [e' He']. congruence. }
  rewrite (get_devices_answered _ _ _ Hsend Hstatus) in Hrun. simpl in Hrun.
  destruct (json_loads (text response)) as [document|] eqn:Hdoc; [|discriminate].
  destruct (py_getitem document "ac_list") as [devices|] eqn:Hlist; [|discriminate].
  destruct (py_iter devices) as [entries|] eqn:Hiter; [|discriminate].
  destruct (for_each get_devices_entry entries _) as [[[]|e] self2] eqn:Hloop;
    [|discriminate].
  apply for_each_entries_Return in Hloop as (summaries & Hall & ->).
  injection Hrun as <- <-.
  exists response, transport, document, devices, entries, summaries.
  repeat (split; [done|]). split; [|done].
  eapply Forall2_impl; [exact Hall|]. intros entry summary. apply entry_summary_Return.
Qed.

(** The converse: such an answer makes [get_devices] return. *)
Lemma get_devices_returns self response transport document devices entries summaries :
  requests_send (_session self) (devices_request (_verifySsl self)) =
    (Return response, transport) →
  status_code response / 100 = 2 →
  json_loads (text response) = Some document →
  py_getitem document "ac_list" = Return devices →
  py_iter devices = Return entries →
  Forall2 (λ entry summary, entry_summary entry = Return summary) entries summaries →
  get_devices self =
  (Return (Some summaries), with_devices (Some summaries) (with_session transport self)).
Proof.
  intros Hsend Hstatus Hdoc Hlist Hiter Hall.
  rewrite (get_devices_answered _ _ _ Hsend Hstatus). simpl.
  rewrite Hdoc, Hlist, Hiter.
  by rewrite (for_each_entries_all _ _ _ _ Hall).
Qed.

(** The call starts from an emptied cache: what was cached before it has no
    part in its outcome. *)
Lemma get_devices_forgets_cache self devices :
  get_devices (with_devices devices self) = get_devices self.
Proof. reflexivity. Qed.

(** C10. [get_devices] empties the cached list first, so when it fails
    because the transport raised, because the status was outside 200..299,
    or because the decoded body has no [ac_list] field, the list cached
    before the call is gone and the cached list is the empty one. *)
Theorem get_devices_failure_empties_cache (self : Session) :
  (∃ e transport,
     requests_send (_session self) (devices_request (_verifySsl self)) =
       (Raise e, transport)) ∨
  (∃ response transport,
     requests_send (_session self) (devices_request (_verifySsl self)) =
       (Return response, transport) ∧
     status_code response / 100 ≠ 2) ∨
  (∃ response transport document e,
     requests_send (_session self) (devices_request (_verifySsl self)) =
       (Return response, transport) ∧
     status_code response / 100 = 2 ∧
     json_loads (text response) = Some document ∧
     py_getitem document "ac_list" = Raise e) →
  ∃ e, (get_devices self).1 = Raise e ∧ _devices (get_devices self).2 = Some [].
Proof.
  intros [(e & transport & Hsend)|[(response & transport & Hsend & Hstatus)
         |(response & transport & document & e & Hsend & Hstatus & Hdoc & Hlist)]].
  - destruct (get_devices_unanswered _ _ _ Hsend) as [e' ->]. by exists e'.
  - destruct (get_devices_bad_status _ _ _ Hsend Hstatus) as [e' ->]. by exists e'.
  - rewrite (get_devices_answered _ _ _ Hsend Hstatus). simpl.
    rewrite Hdoc, Hlist. by exists e.
Qed.

End SessionFacts.

(** ** Runs of the sample installation *)

Section SampleRuns.
#[local] Existing Instance Sample.constants.
#[local] Existing Instance Sample.urls.

(** The claim C1 as stated fails for [set_device]: with the status 201 it
    returns [True] and raises no [ResponseError]. *)
Lemma set_device_accepts_201 :
  let runtime := Sample.answers 201 "{}" in
  (set_device "A1" [] (Sample.session runtime)).1 = Return true ∧
  ¬ (∃ message data,
       (set_device "A1" [] (Sample.session runtime)).1 =
       Raise (ResponseError message 201 data)).
Proof.
  intros runtime.
  assert ((set_device "A1" [] (Sample.session runtime)).1 = Return true) as Hrun
    by reflexivity.
  split; [done|]. intros (message & data & Hraise). congruence.
Qed.

Lemma status_code_contract_witness :
  let runtime := Sample.answers 201 "{'status': 'created'}" in
  let self := Sample.session runtime in
  let data := JDict {["status" := JStr "created"]} in
  let message := invalid_response 201 (Decoder.js "{'status': 'created'}") in
  (get_device "A1" self).1 = Raise (ResponseError message 201 data) ∧
  (dump "A1" self).1 = Raise (ResponseError message 201 data) ∧
  (set_device "A1" [("power", OfPower (constants := Sample.constants) Sample.On)] self).1 =
    Return true.
Proof.
  intros runtime self data message.
  pose proof (status_code_contract (runtime := runtime) self "A1"
                [("power", OfPower (constants := Sample.constants) Sample.On)]
                {| status_code := 201; text := Decoder.js "{'status': 'created'}" |}
                data tt ltac:(reflexivity)) as [Hget Hset].
  destruct (Hget eq_refl ltac:(simpl; lia)) as [Hdevice Hdump].
  destruct (Hset eq_refl) as [_ Hput].
  split; [exact Hdevice|]. split; [exact Hdump|].
  apply Hput. reflexivity.
Defined.

(** C7 at a failing input. The response has the status 500 and a body that
    is not a JSON text: building the [ResponseError] raises
    [JSONDecodeError], and that is what [get_devices] and [get_device] end
    with instead of a [ResponseError] carrying the status code and body. *)
Theorem response_error_undecodable_body :
  let runtime := Sample.answers 500 "<html>Bad Gateway</html>" in
  new_ResponseError 500 "<html>Bad Gateway</html>" =
    Raise (JSONDecodeError "<html>Bad Gateway</html>") ∧
  (get_devices (Sample.session runtime)).1 =
    Raise (JSONDecodeError "<html>Bad Gateway</html>") ∧
  (get_device "A1" (Sample.session runtime)).1 =
    Raise (JSONDecodeError "<html>Bad Gateway</html>").
Proof. intros runtime. split; [|split]; reflexivity. Qed.

(** C8 at a failing input. [login] receives the status 500 with a body that
    is not a JSON text: what propagates is the [JSONDecodeError] raised
    while the [ResponseError] is built, neither a [ResponseError] nor a
    [LoginError]. *)
Theorem login_undecodable_body :
  let runtime := Sample.answers 500 "<html>Bad Gateway</html>" in
  (login (Sample.session runtime)).1 = Raise (JSONDecodeError "<html>Bad Gateway</html>").
Proof. intros runtime. reflexivity. Qed.

Lemma get_devices_summaries_witness :
  let runtime :=
    Sample.answers 200
      "{'ac_list': [{'appliance_id': 'A1', 'nickname': 'Living', 'product_code': 'CS-1'},
                    {'appliance_id': 'A2', 'nickname': 'Study', 'product_code': 'CS-2'}]}" in
  let summaries :=
    [ {| Device.id := JStr "A1"; Device.name := JStr "Living"; Device.model := JStr "CS-1" |};
      {| Device.id := JStr "A2"; Device.name := JStr "Study"; Device.model := JStr "CS-2" |} ] in
  (get_devices (Sample.session_with_cache runtime)).1 = Return (Some summaries) ∧
  ∃ response transport document devices entries summaries',
    requests_send (_session (Sample.session_with_cache runtime))
      (devices_request (_verifySsl (Sample.session_with_cache runtime))) =
      (Return response, transport) ∧
    json_loads (text response) = Some document ∧
    py_getitem document "ac_list" = Return devices ∧
    py_iter devices = Return entries ∧
    Forall2 (λ entry summary,
               py_getitem entry "appliance_id" = Return (Device.id summary) ∧
               py_getitem entry "nickname" = Return (Device.name summary) ∧
               py_getitem entry "product_code" = Return (Device.model summary))
            entries summaries' ∧
    Some summaries = Some summaries' ∧
    _devices (get_devices (Sample.session_with_cache runtime)).2 = Some summaries'.
Proof.
  intros runtime summaries.
  assert ((get_devices (Sample.session_with_cache runtime)).1 = Return (Some summaries))
    as Hrun by reflexivity.
  split; [exact Hrun|].
  apply (get_devices_summaries (runtime := runtime) (Sample.session_with_cache runtime)).
  rewrite <- Hrun. by destruct (get_devices (Sample.session_with_cache runtime)).
Defined.

Lemma get_devices_failure_empties_cache_witness :
  let runtime := Sample.answers 200 "{'devices': []}" in
  _devices (Sample.session_with_cache runtime) = Some [Sample.old_device] ∧
  ∃ e, (get_devices (Sample.session_with_cache runtime)).1 = Raise e ∧
       _devices (get_devices (Sample.session_with_cache runtime)).2 = Some [].
Proof.
  intros runtime. split; [reflexivity|].
  apply (get_devices_failure_empties_cache (runtime := runtime)).
  right. right.
  exists {| status_code := 200; text := Decoder.js "{'devices': []}" |}, tt,
         (JDict {["devices" := JList []]}), (KeyError "ac_list").
  split; [reflexivity|]. split; [reflexivity|]. split; reflexivity.
Defined.

(** Outside the three failures of C10: an entry that lacks a field stops
    the loop, and the entries before it stay in the cached list. *)
Lemma get_devices_partial_cache :
  let runtime :=
    Sample.answers 200
      "{'ac_list': [{'appliance_id': 'A1', 'nickname': 'Living', 'product_code': 'CS-1'},
                    {'appliance_id': 'A2'}]}" in
  (get_devices (Sample.session_with_cache runtime)).1 = Raise (KeyError "nickname") ∧
  _devices (get_devices (Sample.session_with_cache runtime)).2 =
    Some [ {| Device.id := JStr "A1"; Device.name := JStr "Living";
              Device.model := JStr "CS-1" |} ].
Proof. intros runtime. split; reflexivity. Qed.

End SampleRuns.

(** ** Outcomes of the methods, from the answer of the transport *)

Section Outcomes.
Context `{constants : Constants} `{urls : Urls} `{runtime : !Runtime}.

#[local] Arguments Z.eqb : simpl never.

Ltac run :=
  unfold login, get_devices, dump, get_device, get_status, set_device,
    _validate_response, raise_ResponseError, new_ResponseError, loads,
    except_RequestException, session_request, set__devices,
    bind, attr, ret, raise, lift;
  simpl.

Ltac gate H := repeat (first [rewrite H | rewrite Z.eqb_sym, H]; simpl).

Lemma status_2xx (status : Z) : status / 100 = 2 ↔ 200 ≤ status ≤ 299.
Proof.
  pose proof (Z.div_mod status 100 ltac:(lia)) as Hdiv.
  pose proof (Z.mod_pos_bound status 100 ltac:(lia)) as Hmod.
  lia.
Qed.

(** X1. [_validate_response] returns, leaving the session as it was,
    exactly for the status codes from 200 to 299; for every other code,
    negative ones included, it raises. *)
Theorem _validate_response_accepts (response : Response) (self : Session) :
  _validate_response response self = (Return tt, self) ↔
  200 ≤ status_code response ≤ 299.
Proof.
  rewrite <- status_2xx. unfold _validate_response.
  destruct (2 =? status_code response / 100) eqn:Hgate.
  - apply Z.eqb_eq in Hgate. split; [done|]. by intros _.
  - apply Z.eqb_neq in Hgate. split; [|done].
    unfold raise_ResponseError, new_ResponseError, raise.
    by destruct (json_loads (text response)).
Qed.

(** X2. An exception of the transport during [login] comes out as
    [LoginError] wrapping it when it is a [RequestException]; any other
    exception comes out as it is. *)
Theorem login_transport_raises (self : Session) (e : exn) (transport : Transport) :
  requests_send (_session self)
    (login_request (login_payload (_username self) (_password self)) (_verifySsl self)) =
    (Raise e, transport) →
  (login self).1 =
  Raise match e with RequestException _ => LoginError e | _ => e end.
Proof. intros Hsend. run. rewrite Hsend. by destruct e. Qed.

(** X3. An exception of the transport during [get_devices] comes out as the
    base [Error] wrapping it when it is a [RequestException], and as it is
    otherwise. *)
Theorem get_devices_transport_raises (self : Session) (e : exn) (transport : Transport) :
  requests_send (_session self) (devices_request (_verifySsl self)) = (Raise e, transport) →
  (get_devices self).1 =
  Raise match e with RequestException _ => Error e | _ => e end.
Proof. intros Hsend. run. rewrite Hsend. by destruct e. Qed.

(** X4. An exception of the transport during [get_device] or [dump] comes
    out as [RequestError] wrapping it when it is a [RequestException], and
    as it is otherwise. *)
Theorem status_transport_raises (self : Session) (id : string) (e : exn)
    (transport : Transport) :
  requests_send (_session self) (status_request id (_verifySsl self)) = (Raise e, transport) →
  (get_device id self).1 =
    Raise match e with RequestException _ => RequestError e | _ => e end ∧
  (dump id self).1 =
    Raise match e with RequestException _ => RequestError e | _ => e end.
Proof. intros Hsend. run. rewrite Hsend. by destruct e. Qed.

(** X5. An exception of the transport during [set_device] comes out as
    [RequestError] wrapping it when it is a [RequestException], and as it is
    otherwise. *)
Theorem set_device_transport_raises (self : Session) (id : string)
    (kwargs : list (string * pyobj)) (e : exn) (transport : Transport) :
  requests_send (_session self)
    (control_request id (build_payload kwargs) (_verifySsl self)) = (Raise e, transport) →
  (set_device id kwargs self).1 =
  Raise match e with RequestException _ => RequestError e | _ => e end.
Proof. intros Hsend. run. rewrite Hsend. by destruct e. Qed.

(** X6. [login] succeeds exactly when the transport answers with a status
    from 200 to 299; the body of that answer is not looked at. *)
Theorem login_succeeds_iff (self : Session) :
  (login self).1 = Return tt ↔
  ∃ response transport,
    requests_send (_session self)
      (login_request (login_payload (_username self) (_password self)) (_verifySsl self)) =
      (Return response, transport) ∧
    200 ≤ status_code response ≤ 299.
Proof.
  setoid_rewrite <- status_2xx.
  destruct (requests_send (_session self)
              (login_request (login_payload (_username self) (_password self))
                 (_verifySsl self))) as [[response|e] transport] eqn:Hsend.
  - destruct (2 =? status_code response / 100) eqn:Hgate.
    + split; [|intros _; run; rewrite Hsend; simpl; by gate Hgate].
      intros _. exists response, transport. split; [done|]. by apply Z.eqb_eq in Hgate.
    + split.
      * run. rewrite Hsend. simpl. gate Hgate.
        by destruct (json_loads (text response)).
      * intros (response' & transport' & [= <- <-] & Hstatus%Z.eqb_eq).
        rewrite Z.eqb_sym in Hstatus. congruence.
  - split.
    + run. rewrite Hsend. by destruct e.
    + by intros (response' & transport' & [=] & _).
Qed.

(** X23. [login] and [get_devices] accept the statuses from 200 to 299:
    for any other status with a body that is a JSON text they raise
    [ResponseError] with that status code, the decoded body, and the body as
    received at the end of the message. *)
Theorem login_and_list_bad_status (self : Session) (response : Response)
    (transport : Transport) (data : json) :
  ¬ 200 ≤ status_code response ≤ 299 →
  json_loads (text response) = Some data →
  (requests_send (_session self)
     (login_request (login_payload (_username self) (_password self)) (_verifySsl self)) =
     (Return response, transport) →
   (login self).1 =
   Raise (ResponseError
            ("Invalid response, status code: " +:+ str_of_Z (status_code response) +:+
             " - Data: " +:+ text response)
            (status_code response) data)) ∧
  (requests_send (_session self) (devices_request (_verifySsl self)) =
     (Return response, transport) →
   (get_devices self).1 =
   Raise (ResponseError
            ("Invalid response, status code: " +:+ str_of_Z (status_code response) +:+
             " - Data: " +:+ text response)
            (status_code response) data)).
Proof.
  rewrite <- status_2xx. intros Hstatus%Z.eqb_neq Hdata.
  split; intros Hsend; run; rewrite Hsend; simpl; gate Hstatus; rewrite Hdata; by simpl.
Qed.

(** X7. [set_device] returns [True] exactly when the transport answers
    with a status from 200 to 299 and a body that is a JSON text. *)
Theorem set_device_returns_iff (self : Session) (id : string)
    (kwargs : list (string * pyobj)) :
  (set_device id kwargs self).1 = Return true ↔
  ∃ response transport data,
    requests_send (_session self)
      (control_request id (build_payload kwargs) (_verifySsl self)) =
      (Return response, transport) ∧
    200 ≤ status_code response ≤ 299 ∧
    json_loads (text response) = Some data.
Proof.
  setoid_rewrite <- status_2xx.
  destruct (requests_send (_session self)
              (control_request id (build_payload kwargs) (_verifySsl self)))
    as [[response|e] transport] eqn:Hsend.
  - destruct (2 =? status_code response / 100) eqn:Hgate.
    + destruct (json_loads (text response)) as [data|] eqn:Hdata.
      * split; [|intros _; run; rewrite Hsend; simpl; gate Hgate; by rewrite Hdata].
        intros _. exists response, transport, data.
        split; [done|]. split; [by apply Z.eqb_eq in Hgate|done].
      * split.
        -- run. rewrite Hsend. simpl. gate Hgate. by rewrite Hdata.
        -- intros (response' & transport' & data & [= <- <-] & _ & Hdata').
           congruence.
    + split.
      * run. rewrite Hsend. simpl. gate Hgate.
        by destruct (json_loads (text response)).
      * intros (response' & transport' & data & [= <- <-] & Hstatus%Z.eqb_eq & _).
        rewrite Z.eqb_sym in Hstatus. congruence.
  - split.
    + run. rewrite Hsend. by destruct e.
    + by intros (response' & transport' & data & [=] & _).
Qed.

(** X8. When the device accepted the settings (status from 200 to 299) but
    answered with a body that is not a JSON text, an empty body for
    instance, [set_device] raises [JSONDecodeError] instead of returning. *)
Theorem set_device_undecodable_answer (self : Session) (id : string)
    (kwargs : list (string * pyobj)) (response : Response) (transport : Transport) :
  requests_send (_session self)
    (control_request id (build_payload kwargs) (_verifySsl self)) =
    (Return response, transport) →
  200 ≤ status_code response ≤ 299 →
  json_loads (text response) = None →
  (set_device id kwargs self).1 = Raise (JSONDecodeError (text response)).
Proof.
  intros Hsend Hstatus%status_2xx%Z.eqb_eq Hdata.
  run. rewrite Hsend. simpl. gate Hstatus. by rewrite Hdata.
Qed.

Lemma get_device_dump (self : Session) (id : string) :
  get_device id self =
  match dump id self with
  | (Return document, self') =>
      (parameters ← _read_parameters document;
       Return {| Status.id := id; Status.parameters := parameters |},
       self')
  | (Raise e, self') => (Raise e, self')
  end.
Proof.
  unfold get_device, dump, bind at 1 2 4.
  destruct (get_status id self) as [[response|e] self']; [|done].
  unfold loads, bind, lift, ret, raise.
  destruct (json_loads (text response)) as [document|]; [|done].
  by destruct (_read_parameters document).
Qed.

(** X9. [get_device] is [dump] followed by [_read_parameters]: it fails as
    [dump] does, and otherwise decodes the document [dump] returns and
    pairs the outcome with the [id] it was called with; the session ends as
    [dump] leaves it. *)
Theorem get_device_after_dump (self : Session) (id : string) :
  get_device id self =
  match dump id self with
  | (Return document, self') =>
      (parameters ← _read_parameters document;
       Return {| Status.id := id; Status.parameters := parameters |},
       self')
  | (Raise e, self') => (Raise e, self')
  end.
Proof. apply get_device_dump. Qed.

(** X10. With the status 200, [dump] returns the decoded body as it is, or
    raises [JSONDecodeError] when the body is not a JSON text; only the
    transport of the session changes. *)
Theorem dump_answered (self : Session) (id : string) (response : Response)
    (transport : Transport) :
  requests_send (_session self) (status_request id (_verifySsl self)) =
    (Return response, transport) →
  status_code response = 200 →
  dump id self =
  (match json_loads (text response) with
   | Some document => Return document
   | None => Raise (JSONDecodeError (text response))
   end,
   with_session transport self).
Proof.
  intros Hsend Hstatus.
  assert ((status_code response =? 200) = true) as H200 by (by apply Z.eqb_eq).
  assert ((2 =? status_code response / 100) = true) as H2xx by (by rewrite Hstatus).
  run. rewrite Hsend. simpl. gate H200. gate H2xx.
  by destruct (json_loads (text response)).
Qed.

(** X11. [login], [dump], [get_device] and [set_device] change nothing of
    the session but its transport: the cached device list in particular is
    left alone, whatever the outcome. *)
Theorem only_the_transport_changes (self : Session) (id : string)
    (kwargs : list (string * pyobj)) :
  (∃ transport, (login self).2 = with_session transport self) ∧
  (∃ transport, (dump id self).2 = with_session transport self) ∧
  (∃ transport, (get_device id self).2 = with_session transport self) ∧
  (∃ transport, (set_device id kwargs self).2 = with_session transport self).
Proof.
  assert (∃ transport, (dump id self).2 = with_session transport self) as Hdump.
  { run.
    destruct (requests_send _ _) as [[response|e] transport]; simpl;
      exists transport; [|by destruct e].
    destruct (status_code response =? 200); simpl.
    - destruct (2 =? status_code response / 100); simpl;
        by destruct (json_loads (text response)).
    - by destruct (json_loads (text response)). }
  split; [|split; [done|split]].
  - run.
    destruct (requests_send _ _) as [[response|e] transport]; simpl;
      exists transport; [|by destruct e].
    destruct (2 =? status_code response / 100) eqn:Hgate; simpl; [by gate Hgate|].
    by destruct (json_loads (text response)).
  - rewrite get_device_dump. destruct Hdump as [transport Hdump].
    exists transport. by destruct (dump id self) as [[document|e] self'].
  - run.
    destruct (requests_send _ _) as [[response|e] transport]; simpl;
      exists transport; [|by destruct e].
    destruct (2 =? status_code response / 100) eqn:Hgate; simpl.
    + gate Hgate. by destruct (json_loads (text response)).
    + by destruct (json_loads (text response)).
Qed.

(** X12. When the transport answers with a status from 200 to 299 and a
    JSON body whose [ac_list] can be iterated, all entries carrying
    [appliance_id], [nickname] and [product_code], [get_devices] returns the
    list of their summaries in order, and that list replaces the cached
    one. *)
Theorem get_devices_lists_every_entry (self : Session) (response : Response)
    (transport : Transport) (document devices : json) (entries : list json)
    (summaries : list Device.summary) :
  requests_send (_session self) (devices_request (_verifySsl self)) =
    (Return response, transport) →
  200 ≤ status_code response ≤ 299 →
  json_loads (text response) = Some document →
  py_getitem document "ac_list" = Return devices →
  py_iter devices = Return entries →
  Forall2 (λ entry summary,
             py_getitem entry "appliance_id" = Return (Device.id summary) ∧
             py_getitem entry "nickname" = Return (Device.name summary) ∧
             py_getitem entry "product_code" = Return (Device.model summary))
          entries summaries →
  get_devices self =
  (Return (Some summaries), with_devices (Some summaries) (with_session transport self)).
Proof.
  intros Hsend Hstatus%status_2xx Hdoc Hlist Hiter Hall.
  eapply get_devices_returns; eauto.
  eapply Forall2_impl; [exact Hall|]. intros entry summary. apply entry_summary_Return.
Qed.

Lemma for_each_entries_stops good bad rest summaries e acc self :
  Forall2 (λ entry summary, entry_summary entry = Return summary) good summaries →
  entry_summary bad = Raise e →
  for_each get_devices_entry (good ++ bad :: rest) (with_devices (Some acc) self) =
  (Raise e, with_devices (Some (acc ++ summaries)) self).
Proof.
  intros Hall Hbad. revert acc.
  induction Hall as [|entry summary good summaries Hentry _ IH]; intros acc; simpl.
  - unfold bind at 1. by rewrite get_devices_entry_run, Hbad, app_nil_r.
  - unfold bind at 1. rewrite get_devices_entry_run, Hentry, IH.
    by rewrite <- app_assoc.
Qed.

(** X13. [get_devices] is not atomic: when an entry of [ac_list] cannot be
    summarised (it is not a dictionary, or lacks one of the three fields),
    the call raises the exception of that subscript, and the cached list is
    left holding the summaries of the entries before it. *)
Theorem get_devices_stops_at_bad_entry (self : Session) (response : Response)
    (transport : Transport) (document devices : json) (good rest : list json)
    (bad : json) (summaries : list Device.summary) (e : exn) :
  requests_send (_session self) (devices_request (_verifySsl self)) =
    (Return response, transport) →
  200 ≤ status_code response ≤ 299 →
  json_loads (text response) = Some document →
  py_getitem document "ac_list" = Return devices →
  py_iter devices = Return (good ++ bad :: rest) →
  Forall2 (λ entry summary, entry_summary entry = Return summary) good summaries →
  entry_summary bad = Raise e →
  get_devices self =
  (Raise e, with_devices (Some summaries) (with_session transport self)).
Proof.
  intros Hsend Hstatus%status_2xx Hdoc Hlist Hiter Hall Hbad.
  rewrite (get_devices_answered _ _ _ Hsend Hstatus). simpl.
  rewrite Hdoc, Hlist, Hiter.
  by rewrite (for_each_entries_stops _ _ _ _ _ _ _ Hall Hbad).
Qed.

End Outcomes.

(** ** More on the payload *)

Section PayloadMore.
Context `{constants : Constants}.

Lemma foldl_payload_item_Some payload kwargs w x :
  foldl payload_item payload kwargs !! w = Some x →
  payload !! w = Some x ∨ ∃ item, item ∈ kwargs ∧ encode_item item = Some (w, x).
Proof.
  revert payload. induction kwargs as [|item kwargs IH]; intros payload; simpl; [by left|].
  intros [Hhead|(item' & Hin & Henc)]%IH.
  - rewrite payload_item_encode in Hhead.
    destruct (encode_item item) as [[w' x']|] eqn:Hitem; [|by left].
    destruct (decide (w' = w)) as [->|Hne].
    + rewrite lookup_insert_eq in Hhead. injection Hhead as ->.
      right. exists item. split; [by left|done].
    + rewrite lookup_insert_ne in Hhead by done. by left.
  - right. exists item'. split; [by right|done].
Qed.

Lemma payload_item_skip payload key v :
  encode_item (key, v) = None → payload_item payload (key, v) = payload.
Proof. intros Hnone. by rewrite payload_item_encode, Hnone. Qed.

Lemma encode_item_unknown key v :
  key ∉ ["power"; "temperature"; "mode"; "fanSpeed"; "airSwingVertical"] →
  encode_item (key, v) = None.
Proof.
  rewrite !not_elem_of_cons. intros (? & ? & ? & ? & ? & _).
  unfold encode_item. simpl.
  destruct (String.eqb_spec key "temperature"); [done|].
  destruct (String.eqb_spec key "power"); [done|].
  destruct (String.eqb_spec key "mode"); [done|].
  destruct (String.eqb_spec key "fanSpeed"); [done|].
  by destruct (String.eqb_spec key "airSwingVertical").
Qed.

(** X14. The payload never holds a key other than the five wire keys of
    the settings and the four fixed fields, whatever the keyword arguments
    are named. *)
Theorem build_payload_keys (kwargs : list (string * pyobj)) :
  dom (build_payload kwargs) ⊆
  {[ "operation_status"; "temperature"; "operation_mode"; "wind_volume"; "wind_direction";
     "airquality"; "nanoex"; "silence_control"; "timer_value" ]}.
Proof.
  intros w [x Hx]%elem_of_dom.
  destruct (decide (w ∈ fixed_fields.*1)) as [Hfixed|Hfree].
  { unfold fixed_fields in Hfixed. simpl in Hfixed. set_solver. }
  rewrite build_payload_other in Hx by done.
  apply foldl_payload_item_Some in Hx as [Hempty|([key v] & _ & Henc)].
  { by rewrite lookup_empty in Hempty. }
  apply encode_item_Some in Henc as [(_ & -> & _)|(s & c & _ & -> & _)].
  - set_solver.
  - destruct s; set_solver.
Qed.

(** X15. The payload does not depend on the order in which the keyword
    arguments are written. *)
Theorem build_payload_permutation (kwargs kwargs' : list (string * pyobj)) :
  NoDup kwargs.*1 → kwargs ≡ₚ kwargs' →
  build_payload kwargs = build_payload kwargs'.
Proof.
  intros Hnd Hperm.
  assert (NoDup kwargs'.*1) as Hnd' by (by rewrite <- Hperm).
  apply map_eq. intros w.
  destruct (decide (w ∈ fixed_fields.*1)) as [Hfixed|Hfree].
  { apply list_elem_of_fmap in Hfixed as ([w' x] & -> & Hin). simpl.
    by rewrite !(build_payload_fixed _ w' x). }
  rewrite !build_payload_other by done.
  apply option_eq. intros x. split.
  - intros [Hempty|([key v] & Hin & Henc)]%foldl_payload_item_Some.
    { by rewrite lookup_empty in Hempty. }
    eapply foldl_payload_item_written; eauto. by rewrite <- Hperm.
  - intros [Hempty|([key v] & Hin & Henc)]%foldl_payload_item_Some.
    { by rewrite lookup_empty in Hempty. }
    eapply foldl_payload_item_written; eauto. by rewrite Hperm.
Qed.

(** X16. A keyword argument whose name is none of the five settings, or
    whose value is not a member of the class its setting expects, has no
    effect at all: the payload is the one built without it. *)
Theorem build_payload_skips (before after : list (string * pyobj)) (key : string)
    (v : pyobj) :
  key ∉ ["power"; "temperature"; "mode"; "fanSpeed"; "airSwingVertical"] ∨
  (∃ s, key = domain_key s ∧ has_type s v = false) →
  build_payload (before ++ (key, v) :: after) = build_payload (before ++ after).
Proof.
  intros Hskip.
  assert (encode_item (key, v) = None) as Hnone.
  { destruct Hskip as [Hkey|(s & -> & Ht)]; [by apply encode_item_unknown|].
    by rewrite encode_item_setting, Ht. }
  unfold build_payload. rewrite !foldl_app. cbn [foldl].
  by rewrite (payload_item_skip _ _ _ Hnone).
Qed.

End PayloadMore.

(** ** More on the decoded parameter set *)

Section ReadMore.
Context `{constants : Constants}.

Lemma copied_lookup_convert d key name :
  (key, name) ∈ _convert → copied d !! name = Plain <$> d !! key.
Proof.
  unfold copied, _convert. simpl. rewrite !elem_of_cons, elem_of_nil.
  intros [[= -> ->]|[[= -> ->]|[[= -> ->]|[]]]];
    destruct (d !! "inside_temp"), (d !! "outside_temp"), (d !! "temperature");
    by simplify_map_eq.
Qed.

Lemma convert_name_not_setting key name (s : setting) :
  (key, name) ∈ _convert → domain_key s ≠ name.
Proof.
  unfold _convert. rewrite !elem_of_cons, elem_of_nil.
  intros [[= -> ->]|[[= -> ->]|[[= -> ->]|[]]]]; by destruct s.
Qed.

Lemma read_enum_other d s val val' name :
  read_enum d s val = Return val' → domain_key s ≠ name → val' !! name = val !! name.
Proof.
  intros [[_ ->]|(x & v & _ & _ & ->)]%read_enum_Return Hne; [done|].
  by rewrite lookup_insert_ne.
Qed.

(** X17. [_read_parameters] returns a parameter set for a dictionary
    exactly when every enumeration-backed field it holds has a value of the
    known code set of its setting; the other fields never make it fail. *)
Theorem read_parameters_returns_iff (d : gmap string json) :
  (∃ val, _read_parameters (JDict d) = Return val) ↔
  ∀ s x, d !! wire_key s = Some x → known_code s x = true.
Proof.
  split.
  - intros [val Hval] s x Hx.
    pose proof (_read_parameters_Return d val s Hval) as Hs. rewrite Hx in Hs.
    destruct Hs as (v & (Ht & c & Hc & Heq)%decode_Return & _).
    apply known_code_true. eauto using value_in_codes.
  - intros Hknown. destruct (_read_parameters (JDict d)) as [val|e] eqn:Hread; [eauto|].
    apply _read_parameters_Raise in Hread as (s & x & Hx & [_ Hk]%decode_Raise).
    rewrite (Hknown s x Hx) in Hk. discriminate.
Qed.

Lemma _read_parameters_convert (d : gmap string json) (val : gmap string pyobj)
    (key name : string) :
  _read_parameters (JDict d) = Return val →
  (key, name) ∈ _convert →
  val !! name = Plain <$> d !! key.
Proof.
  rewrite _read_parameters_dict. intros Hread Hconv.
  destruct (read_enum d power _) as [v1|] eqn:H1; simpl in Hread; [|discriminate].
  destruct (read_enum d mode _) as [v2|] eqn:H2; simpl in Hread; [|discriminate].
  destruct (read_enum d fanSpeed _) as [v3|] eqn:H3; simpl in Hread; [|discriminate].
  rewrite (read_enum_other _ _ _ _ name Hread), (read_enum_other _ _ _ _ name H3),
    (read_enum_other _ _ _ _ name H2), (read_enum_other _ _ _ _ name H1)
    by eauto using convert_name_not_setting.
  by apply copied_lookup_convert.
Qed.

(** X18. The three temperature fields are copied as they are, without any
    conversion or check: in a returned parameter set [temperatureInside],
    [temperatureOutside] and [temperature] hold exactly what the document
    has under [inside_temp], [outside_temp] and [temperature], and are
    absent when the document has nothing there. *)
Theorem read_parameters_copies (d : gmap string json) (val : gmap string pyobj)
    (key name : string) :
  _read_parameters (JDict d) = Return val →
  (key, name) ∈ _convert →
  val !! name = Plain <$> d !! key.
Proof. apply _read_parameters_convert. Qed.

(** X19. [_read_parameters] looks at the seven wire keys of its table and
    at nothing else: two documents that agree on those keys are decoded
    alike, to the same parameter set or the same exception. *)
Theorem read_parameters_ignores_other_keys (d d' : gmap string json) :
  (∀ key name, (key, name) ∈ translation → d !! key = d' !! key) →
  _read_parameters (JDict d) = _read_parameters (JDict d').
Proof.
  intros Hagree. rewrite !_read_parameters_dict.
  assert (copied d = copied d') as ->.
  { unfold copied, _convert. simpl.
    rewrite (Hagree "inside_temp" "temperatureInside"),
      (Hagree "outside_temp" "temperatureOutside"),
      (Hagree "temperature" "temperature"); [done|unfold translation, _convert; set_solver..]. }
  assert (∀ s val, read_enum d s val = read_enum d' s val) as Henum.
  { intros s val. unfold read_enum.
    by rewrite (Hagree _ (domain_key s) (setting_in_translation s)). }
  rewrite Henum. apply result_bind_ext; [done|intros ?].
  rewrite Henum. apply result_bind_ext; [done|intros ?].
  rewrite Henum. apply result_bind_ext; [done|intros ?].
  apply Henum.
Qed.

(** X20. On a decoded body that is not a dictionary [_read_parameters]
    does not fail as such: it returns the empty parameter set when none of
    the seven wire keys is "in" the value (a list without those strings, a
    string without those substrings), and raises [TypeError] otherwise
    ([None], a boolean, a number, or a list or string that has one). *)
Theorem read_parameters_of_non_dictionary (document : json) :
  (∀ d, document ≠ JDict d) →
  _read_parameters document =
  if forallb (λ '(key, _), match py_in key document with
                           | Return false => true
                           | _ => false
                           end) translation
  then Return ∅ else Raise TypeError.
Proof.
  intros Hdoc. destruct document as [| | | |s|l|d]; try reflexivity.
  - unfold _read_parameters, read_field, translation, _convert. simpl.
    repeat match goal with
           | |- context [bool_decide ?P] => destruct (bool_decide P)
           end; reflexivity.
  - unfold _read_parameters, read_field, translation, _convert. simpl.
    repeat match goal with
           | |- context [existsb ?f l] => destruct (existsb f l)
           end; reflexivity.
  - by destruct (Hdoc d).
Qed.

End ReadMore.

(** ** The two directions of the codec on whole documents *)

Section CodecDocuments.
Context `{constants : Constants}.

Lemma build_payload_missing kwargs w :
  w ∉ fixed_fields.*1 →
  (∀ key v x, (key, v) ∈ kwargs → encode_item (key, v) ≠ Some (w, x)) →
  build_payload kwargs !! w = None.
Proof.
  intros Hfree Hno. rewrite build_payload_other by done.
  rewrite foldl_payload_item_other; [apply lookup_empty|].
  intros [key v] x. apply Hno.
Qed.

Lemma domain_key_inj (s s' : setting) : domain_key s = domain_key s' → s = s'.
Proof. by destruct s, s'. Qed.

Lemma echoed_lookup (payload : gmap string pyobj) w :
  echoed payload !! w = payload !! w ≫= as_plain.
Proof. apply lookup_omap. Qed.

(** The kwargs that [set_device] understands and sends as plain data. *)
Lemma echoed_setting kwargs (s : setting) :
  NoDup kwargs.*1 →
  (∀ key v, (key, v) ∈ kwargs →
     (key = "temperature" ∧ ∃ j, v = Plain j) ∨ (∃ s, key = domain_key s ∧ has_type s v = true)) →
  match (list_to_map kwargs : gmap string pyobj) !! domain_key s with
  | Some v => ∃ c, code_of v = Some c ∧ has_type s v = true ∧
                   echoed (build_payload kwargs) !! wire_key s = Some (code_json c)
  | None => echoed (build_payload kwargs) !! wire_key s = None
  end.
Proof.
  intros Hnd Htyped. rewrite echoed_lookup.
  destruct (list_to_map kwargs !! domain_key s) as [v|] eqn:Hm.
  - apply elem_of_list_to_map in Hm; [|done].
    assert (has_type s v = true) as Ht.
    { destruct (Htyped _ _ Hm) as [[Hk _]|(s' & Hk%domain_key_inj & Ht)];
        [by destruct s|by subst]. }
    assert (∃ c, code_of v = Some c) as [c Hc] by (destruct s, v; try discriminate; eauto).
    exists c. rewrite (build_payload_setting kwargs s v), Ht, Hc by done. done.
  - rewrite build_payload_missing; [done|apply wire_key_not_fixed|].
    intros key v x Hin Henc. apply encode_item_wire_key in Henc as ->.
    apply (elem_of_list_to_map (M := gmap string)) in Hin; [|done]. congruence.
Qed.

Lemma echoed_temperature kwargs :
  NoDup kwargs.*1 →
  (∀ key v, (key, v) ∈ kwargs →
     (key = "temperature" ∧ ∃ j, v = Plain j) ∨ (∃ s, key = domain_key s ∧ has_type s v = true)) →
  Plain <$> echoed (build_payload kwargs) !! "temperature" =
  (list_to_map kwargs : gmap string pyobj) !! "temperature".
Proof.
  intros Hnd Htyped. rewrite echoed_lookup.
  destruct (list_to_map kwargs !! "temperature") as [v|] eqn:Hm.
  - apply elem_of_list_to_map in Hm; [|done].
    destruct (Htyped _ _ Hm) as [[_ [j ->]]|(s & Hk & _)]; [|by destruct s].
    by rewrite (build_payload_temperature kwargs (Plain j)).
  - rewrite build_payload_missing; [done|apply temperature_not_fixed|].
    intros key v x Hin Henc. apply encode_item_wire_temperature in Henc as ->.
    apply (elem_of_list_to_map (M := gmap string)) in Hin; [|done]. congruence.
Qed.

Lemma echoed_no_sensor kwargs key :
  key = "inside_temp" ∨ key = "outside_temp" →
  echoed (build_payload kwargs) !! key = None.
Proof.
  intros Hkey. rewrite echoed_lookup, build_payload_missing; [done| |].
  - unfold fixed_fields. simpl. destruct Hkey as [-> | ->]; set_solver.
  - intros k v x _ [(_ & Hw & _)|(s & c & _ & Hw & _)]%encode_item_Some;
      destruct Hkey as [-> | ->]; try done; by destruct s.
Qed.

(** X21. Round trip on whole documents, encode then decode: when every
    keyword argument is one of the four enumeration-backed settings with a
    member of its class, or [temperature] with plain data, decoding the
    payload [set_device] builds (as a device echoing it would answer) gives
    back exactly the keyword arguments; the four fixed fields leave no
    trace. *)
Theorem echoed_settings_read_back (kwargs : list (string * pyobj)) :
  NoDup kwargs.*1 →
  (∀ key v, (key, v) ∈ kwargs →
     (key = "temperature" ∧ ∃ j, v = Plain j) ∨ (∃ s, key = domain_key s ∧ has_type s v = true)) →
  _read_parameters (JDict (echoed (build_payload kwargs))) = Return (list_to_map kwargs).
Proof.
  intros Hnd Htyped.
  pose proof (echoed_setting kwargs) as Hsetting.
  destruct (_read_parameters (JDict (echoed (build_payload kwargs)))) as [val|e] eqn:Hread.
  2:{ apply _read_parameters_Raise in Hread as (s & x & Hx & Hraise).
      specialize (Hsetting s Hnd Htyped).
      destruct (list_to_map kwargs !! domain_key s) as [v|]; [|congruence].
      destruct Hsetting as (c & Hc & Ht & Hecho).
      rewrite Hecho in Hx. injection Hx as <-.
      by rewrite (decode_code_of s v c) in Hraise. }
  f_equal. apply map_eq. intros name.
  destruct (decide (name ∈ translation.*2)) as [Hname|Hname].
  - apply list_elem_of_fmap in Hname as ([key name'] & -> & Hin). simpl.
    unfold translation in Hin. apply elem_of_app in Hin as [Hconv|Hset].
    + rewrite (_read_parameters_convert _ _ _ _ Hread Hconv).
      unfold _convert in Hconv. rewrite !elem_of_cons, elem_of_nil in Hconv.
      destruct Hconv as [[= -> ->]|[[= -> ->]|[[= -> ->]|[]]]].
      * rewrite echoed_no_sensor by auto. symmetry.
        apply not_elem_of_list_to_map_1. intros ([k v] & Hk & Hin)%list_elem_of_fmap.
        simpl in Hk. subst k.
        destruct (Htyped _ _ Hin) as [[? _]|(s & ? & _)]; [done|by destruct s].
      * rewrite echoed_no_sensor by auto. symmetry.
        apply not_elem_of_list_to_map_1. intros ([k v] & Hk & Hin)%list_elem_of_fmap.
        simpl in Hk. subst k.
        destruct (Htyped _ _ Hin) as [[? _]|(s & ? & _)]; [done|by destruct s].
      * by apply echoed_temperature.
    + apply list_elem_of_fmap in Hset as (s & [= -> ->] & _).
      pose proof (_read_parameters_Return _ _ s Hread) as Hs.
      specialize (Hsetting s Hnd Htyped).
      destruct (list_to_map kwargs !! domain_key s) as [v|].
      * destruct Hsetting as (c & Hc & Ht & Hecho). rewrite Hecho in Hs.
        destruct Hs as (v' & Hv' & ->). rewrite (decode_code_of s v c) in Hv' by done.
        congruence.
      * by rewrite Hsetting in Hs.
  - transitivity (@None pyobj).
    + destruct (val !! name) as [x|] eqn:Hx; [|done].
      destruct (_read_parameters_explained _ _ Hread name) as (key & Hkey & _); [eauto|].
      exfalso. apply Hname. apply list_elem_of_fmap. by exists (key, name).
    + symmetry. apply not_elem_of_list_to_map_1.
      intros ([k v] & Hk & Hin)%list_elem_of_fmap. simpl in Hk. subst k.
      apply Hname. unfold translation, _convert. simpl.
      destruct (Htyped _ _ Hin) as [[-> _]|(s & -> & _)]; [|destruct s]; set_solver.
Qed.

(** X22. Round trip on whole documents, decode then encode: feeding a
    decoded parameter set back to [set_device] writes, for each
    enumeration-backed field of the document, a code equal (as Python
    compares) to the value the document had, writes the [temperature] of the
    document as it was, and writes none of these keys when the document did
    not have it. *)
Theorem decoded_settings_written_back (d : gmap string json) (val : gmap string pyobj) :
  _read_parameters (JDict d) = Return val →
  build_payload (map_to_list val) !! "temperature" = Plain <$> d !! "temperature" ∧
  ∀ s, match d !! wire_key s with
       | Some x => ∃ c, build_payload (map_to_list val) !! wire_key s =
                          Some (Plain (code_json c)) ∧
                        py_eq x c = true
       | None => build_payload (map_to_list val) !! wire_key s = None
       end.
Proof.
  intros Hread.
  assert (NoDup (map_to_list val).*1) as Hnd by apply NoDup_fst_map_to_list.
  split.
  - assert (("temperature", "temperature") ∈ _convert) as Hconv
      by (unfold _convert; set_solver).
    rewrite <- (_read_parameters_convert _ _ _ _ Hread Hconv).
    destruct (val !! "temperature") as [v|] eqn:Hv.
    + apply build_payload_temperature; [done|]. by apply elem_of_map_to_list.
    + apply build_payload_missing; [apply temperature_not_fixed|].
      intros key v x Hin Henc. apply encode_item_wire_temperature in Henc as ->.
      apply elem_of_map_to_list in Hin. congruence.
  - intros s. pose proof (_read_parameters_Return _ _ s Hread) as Hs.
    destruct (d !! wire_key s) as [x|].
    + destruct Hs as (v & (Ht & c & Hc & Heq)%decode_Return & Hv).
      exists c. split; [|done].
      rewrite (build_payload_setting _ s v), Ht, Hc; [done..|].
      by apply elem_of_map_to_list.
    + apply build_payload_missing; [apply wire_key_not_fixed|].
      intros key v x Hin Henc. apply encode_item_wire_key in Henc as ->.
      apply elem_of_map_to_list in Hin. congruence.
Qed.

End CodecDocuments.

(** ** More runs of the sample installation *)

Section SampleMore.
#[local] Existing Instance Sample.constants.
#[local] Existing Instance Sample.urls.

Lemma login_transport_raises_witness :
  let runtime := Sample.scripted (Raise (RequestException "timed out")) in
  (login (Sample.session runtime)).1 = Raise (LoginError (RequestException "timed out")).
Proof.
  intros runtime.
  apply (login_transport_raises (runtime := runtime) (Sample.session runtime)
           (RequestException "timed out") tt).
  reflexivity.
Defined.

Lemma get_devices_transport_raises_witness :
  let runtime := Sample.scripted (Raise (RequestException "timed out")) in
  (get_devices (Sample.session runtime)).1 = Raise (Error (RequestException "timed out")).
Proof.
  intros runtime.
  apply (get_devices_transport_raises (runtime := runtime) (Sample.session runtime)
           (RequestException "timed out") tt).
  reflexivity.
Defined.

Lemma status_transport_raises_witness :
  let runtime := Sample.scripted (Raise (RequestException "timed out")) in
  (get_device "A1" (Sample.session runtime)).1 =
    Raise (RequestError (RequestException "timed out")) ∧
  (dump "A1" (Sample.session runtime)).1 =
    Raise (RequestError (RequestException "timed out")).
Proof.
  intros runtime.
  apply (status_transport_raises (runtime := runtime) (Sample.session runtime) "A1"
           (RequestException "timed out") tt).
  reflexivity.
Defined.

Lemma set_device_transport_raises_witness :
  let runtime := Sample.scripted (Raise TypeError) in
  (set_device "A1" [("temperature", Plain (JInt 23))] (Sample.session runtime)).1 =
  Raise TypeError.
Proof.
  intros runtime.
  apply (set_device_transport_raises (runtime := runtime) (Sample.session runtime) "A1"
           [("temperature", Plain (JInt 23))] TypeError tt).
  reflexivity.
Defined.

Lemma set_device_undecodable_answer_witness :
  let runtime := Sample.answers 204 "" in
  (set_device "A1" [("temperature", Plain (JInt 23))] (Sample.session runtime)).1 =
  Raise (JSONDecodeError "").
Proof.
  intros runtime.
  apply (set_device_undecodable_answer (runtime := runtime) (Sample.session runtime) "A1"
           [("temperature", Plain (JInt 23))] {| status_code := 204; text := "" |} tt).
  - reflexivity.
  - simpl. lia.
  - reflexivity.
Defined.

Lemma dump_answered_witness :
  let runtime := Sample.answers 200 "{'inside_temp': 21, 'nanoex': true}" in
  (dump "A1" (Sample.session runtime)).1 =
  Return (JDict {[ "inside_temp" := JInt 21; "nanoex" := JBool true ]}).
Proof.
  intros runtime.
  rewrite (dump_answered (runtime := runtime) (Sample.session runtime) "A1"
             {| status_code := 200;
                text := Decoder.js "{'inside_temp': 21, 'nanoex': true}" |} tt
             eq_refl eq_refl).
  reflexivity.
Defined.

Lemma get_devices_lists_every_entry_witness :
  let runtime :=
    Sample.answers 200
      "{'ac_list': [{'appliance_id': 'A1', 'nickname': 'Living', 'product_code': 'CS-1'}]}" in
  (get_devices (Sample.session_with_cache runtime)).1 =
  Return (Some [ {| Device.id := JStr "A1"; Device.name := JStr "Living";
                    Device.model := JStr "CS-1" |} ]).
Proof.
  intros runtime.
  rewrite (get_devices_lists_every_entry (runtime := runtime)
             (Sample.session_with_cache runtime)
             {| status_code := 200;
                text := Decoder.js
                  "{'ac_list': [{'appliance_id': 'A1', 'nickname': 'Living', 'product_code': 'CS-1'}]}" |}
             tt
             (JDict {[ "ac_list" :=
                JList [JDict {[ "appliance_id" := JStr "A1"; "nickname" := JStr "Living";
                                "product_code" := JStr "CS-1" ]}] ]})
             (JList [JDict {[ "appliance_id" := JStr "A1"; "nickname" := JStr "Living";
                              "product_code" := JStr "CS-1" ]}])
             [JDict {[ "appliance_id" := JStr "A1"; "nickname" := JStr "Living";
                       "product_code" := JStr "CS-1" ]}]
             [ {| Device.id := JStr "A1"; Device.name := JStr "Living";
                  Device.model := JStr "CS-1" |} ]).
  - reflexivity.
  - reflexivity.
  - simpl. lia.
  - reflexivity.
  - reflexivity.
  - reflexivity.
  - constructor; [|constructor]. repeat split; reflexivity.
Defined.

Lemma get_devices_stops_at_bad_entry_witness :
  let runtime :=
    Sample.answers 200
      "{'ac_list': [{'appliance_id': 'A1', 'nickname': 'Living', 'product_code': 'CS-1'}, 7]}" in
  get_devices (Sample.session_with_cache runtime) =
  (Raise TypeError,
   with_devices (Some [ {| Device.id := JStr "A1"; Device.name := JStr "Living";
                           Device.model := JStr "CS-1" |} ])
     (with_session tt (Sample.session_with_cache runtime))).
Proof.
  intros runtime.
  apply (get_devices_stops_at_bad_entry (runtime := runtime)
           (Sample.session_with_cache runtime)
           {| status_code := 200;
              text := Decoder.js
                "{'ac_list': [{'appliance_id': 'A1', 'nickname': 'Living', 'product_code': 'CS-1'}, 7]}" |}
           tt
           (JDict {[ "ac_list" :=
              JList [JDict {[ "appliance_id" := JStr "A1"; "nickname" := JStr "Living";
                              "product_code" := JStr "CS-1" ]}; JInt 7] ]})
           (JList [JDict {[ "appliance_id" := JStr "A1"; "nickname" := JStr "Living";
                            "product_code" := JStr "CS-1" ]}; JInt 7])
           [JDict {[ "appliance_id" := JStr "A1"; "nickname" := JStr "Living";
                     "product_code" := JStr "CS-1" ]}]
           [] (JInt 7)).
  - reflexivity.
  - simpl. lia.
  - reflexivity.
  - reflexivity.
  - reflexivity.
  - constructor; [reflexivity|constructor].
  - reflexivity.
Defined.

Lemma build_payload_permutation_witness :
  build_payload [("power", OfPower (constants := Sample.constants) Sample.On);
                 ("temperature", Plain (JInt 23))] =
  build_payload [("temperature", Plain (JInt 23));
                 ("power", OfPower (constants := Sample.constants) Sample.On)].
Proof.
  apply build_payload_permutation.
  - by apply (bool_decide_unpack _).
  - apply perm_swap.
Defined.

Lemma build_payload_skips_witness :
  build_payload [("power", OfPower (constants := Sample.constants) Sample.On);
                 ("colour", Plain (JStr "red"));
                 ("mode", Plain (JInt 2))] =
  build_payload [("power", OfPower (constants := Sample.constants) Sample.On)].
Proof.
  transitivity (build_payload [("power", OfPower (constants := Sample.constants) Sample.On);
                               ("mode", Plain (JInt 2))]).
  - apply (build_payload_skips
             [("power", OfPower (constants := Sample.constants) Sample.On)]
             [("mode", Plain (JInt 2))] "colour" (Plain (JStr "red"))).
    left. by apply (bool_decide_unpack _).
  - apply (build_payload_skips
             [("power", OfPower (constants := Sample.constants) Sample.On)]
             [] "mode" (Plain (JInt 2))).
    right. by exists mode.
Defined.

Lemma read_parameters_copies_witness :
  ∃ val : gmap string pyobj,
    _read_parameters (JDict {[ "inside_temp" := JStr "21.5"; "operation_mode" := JInt 2 ]}) =
      Return val ∧
    val !! "temperatureInside" = Some (Plain (JStr "21.5")) ∧
    val !! "temperature" = None.
Proof.
  exists {[ "temperatureInside" := Plain (JStr "21.5");
            "mode" := OfOperationMode (constants := Sample.constants) Sample.Cool ]}.
  assert (_read_parameters
            (JDict {[ "inside_temp" := JStr "21.5"; "operation_mode" := JInt 2 ]}) =
          Return {[ "temperatureInside" := Plain (JStr "21.5");
                    "mode" := OfOperationMode (constants := Sample.constants) Sample.Cool ]})
    as Hread by reflexivity.
  split; [exact Hread|]. split.
  - rewrite (read_parameters_copies _ _ "inside_temp" "temperatureInside" Hread);
      [reflexivity|]. apply list_elem_of_In. simpl. tauto.
  - rewrite (read_parameters_copies _ _ "temperature" "temperature" Hread);
      [reflexivity|]. apply list_elem_of_In. simpl. tauto.
Defined.

Lemma read_parameters_ignores_other_keys_witness :
  _read_parameters (JDict {[ "temperature" := JInt 23 ]}) =
  _read_parameters (JDict {[ "temperature" := JInt 23; "nanoex" := JBool true;
                             "timer_value" := JInt 0 ]}).
Proof.
  apply read_parameters_ignores_other_keys.
  intros key name Hin. apply list_elem_of_In in Hin. simpl in Hin.
  destruct Hin as [[= <- <-]|[[= <- <-]|[[= <- <-]|[[= <- <-]|[[= <- <-]|[[= <- <-]|
                  [[= <- <-]|[]]]]]]]]; reflexivity.
Defined.

Lemma read_parameters_of_non_dictionary_witness :
  _read_parameters (JList [JStr "power"; JInt 1]) = Return ∅ ∧
  _read_parameters (JStr "no temperature") = Raise TypeError.
Proof.
  split.
  - rewrite read_parameters_of_non_dictionary by discriminate. reflexivity.
  - rewrite read_parameters_of_non_dictionary by discriminate. reflexivity.
Defined.

Lemma echoed_settings_read_back_witness :
  let kwargs := [("power", OfPower (constants := Sample.constants) Sample.On);
                 ("temperature", Plain (JInt 23));
                 ("airSwingVertical", OfAirSwingUD (constants := Sample.constants) Sample.Up)] in
  _read_parameters (JDict (echoed (build_payload kwargs))) = Return (list_to_map kwargs).
Proof.
  intros kwargs. apply echoed_settings_read_back.
  - by apply (bool_decide_unpack _).
  - intros key v Hin. apply list_elem_of_In in Hin. simpl in Hin.
    destruct Hin as [[= <- <-]|[[= <- <-]|[[= <- <-]|[]]]].
    + right. by exists power.
    + left. eauto.
    + right. by exists airSwingVertical.
Defined.

Lemma decoded_settings_written_back_witness :
  let d : gmap string json := {[ "operation_status" := JBool true; "temperature" := JInt 23 ]} in
  let val : gmap string pyobj :=
    {[ "power" := OfPower (constants := Sample.constants) Sample.On;
       "temperature" := Plain (JInt 23) ]} in
  _read_parameters (JDict d) = Return val ∧
  build_payload (map_to_list val) !! "temperature" = Some (Plain (JInt 23)) ∧
  (∃ c, build_payload (map_to_list val) !! "operation_status" = Some (Plain (code_json c)) ∧
        py_eq (JBool true) c = true) ∧
  build_payload (map_to_list val) !! "wind_volume" = None.
Proof.
  intros d val.
  assert (_read_parameters (JDict d) = Return val) as Hread by reflexivity.
  destruct (decoded_settings_written_back d val Hread) as [Htemp Hset].
  split; [exact Hread|]. split; [exact Htemp|]. split.
  - exact (Hset power).
  - exact (Hset fanSpeed).
Defined.

Lemma login_and_list_bad_status_witness :
  let runtime := Sample.answers 401 "{'code': 'unauthorized'}" in
  (login (Sample.session runtime)).1 =
    Raise (ResponseError
             (Decoder.js "Invalid response, status code: 401 - Data: {'code': 'unauthorized'}")
             401 (JDict {[ "code" := JStr "unauthorized" ]})) ∧
  (get_devices (Sample.session runtime)).1 =
    Raise (ResponseError
             (Decoder.js "Invalid response, status code: 401 - Data: {'code': 'unauthorized'}")
             401 (JDict {[ "code" := JStr "unauthorized" ]})).
Proof.
  intros runtime.
  destruct (login_and_list_bad_status (runtime := runtime) (Sample.session runtime)
              {| status_code := 401; text := Decoder.js "{'code': 'unauthorized'}" |} tt
              (JDict {[ "code" := JStr "unauthorized" ]})
              ltac:(simpl; lia) eq_refl) as [Hlogin Hlist].
  split; [exact (Hlogin eq_refl)|exact (Hlist eq_refl)].
Defined.

End SampleMore.
